(** * A shallow embedding of [solver.py], the sparse direct-solver benchmark

    The harness loads Matrix Market files, builds the right-hand side
    [b = A * ones], calls one of three external direct solvers (PARDISO
    through pypardiso, SuperLU and UMFPACK through scipy), times the call,
    measures the relative error against the all-ones solution and appends
    the measurements to a CSV file.

    Python values are modelled as follows.
    - [float] is IEEE 754 binary64, taken from [SpecFloat] (53 bits of
      precision, exponents up to 1024).
    - [numpy.ndarray] is a shape with its row-major data.
    - a scipy sparse matrix is a storage-layout tag, a shape and the stored
      entries in storage order.
    - effects (file system, standard streams, clock, calls into the solver
      libraries) are threaded through a state-and-exception monad [M] over
      a [World].
    - whatever the external libraries compute (parsing Matrix Market text,
      the solvers' answers, numpy's norm and subtraction, float printing)
      is a field of the environment record [Env]. *)

From Stdlib Require Import ZArith List String Ascii Bool Lia.
From Stdlib Require Import Floats.SpecFloat.
From stdpp Require Import base option gmap strings list pretty sorting.

Local Open Scope string_scope.

(** ** Python exceptions the program can meet *)

Inductive exn : Type :=
| ValueError (msg : string)
| KeyError (key : string)
| MemoryError
| UnboundLocalError (var : string)
| NameError (name : string)
| FileNotFoundError (path : string)
| IsADirectoryError (path : string)
| EOFError
| InvalidMatrixFormat (msg : string)   (* class declared in the source *)
| LibraryError (msg : string).          (* any other error of a library *)

Inductive outcome (A : Type) : Type :=
| Returns (a : A)
| Raises (e : exn).
Arguments Returns {A} a.
Arguments Raises {A} e.

(** ** binary64 floats *)

Module F64.
Definition prec : Z := 53.
Definition emax : Z := 1024.
Definition add := SFadd prec emax.
Definition sub := SFsub prec emax.
Definition mul := SFmul prec emax.
Definition div := SFdiv prec emax.
Definition sqrt := SFsqrt prec emax.
Definition zero : spec_float := S754_zero false.
Definition one : spec_float := Eval vm_compute in SFone prec emax.
Definition nan : spec_float := S754_nan.

(** NaN, or a value whose sign bit is clear: +0.0, a positive number or
    plus infinity. In particular the value is not below zero. *)
Definition not_negative (f : spec_float) : Prop :=
  match f with
  | S754_nan => True
  | S754_zero s | S754_infinity s | S754_finite s _ _ => s = false
  end.

(** Python's [f >= 0.0]. *)
Definition ge_zero (f : spec_float) : bool := SFleb zero f.
End F64.

(** ** numpy arrays *)

Record ndarray : Type := mk_ndarray {
  nd_shape : list nat;
  nd_data : list spec_float      (* row-major *)
}.

(** [np.ones(shape)] *)
Definition np_ones (shape : list nat) : ndarray :=
  {| nd_shape := shape;
     nd_data := repeat F64.one (fold_right Nat.mul 1 shape) |}.

(** ** scipy sparse matrices *)

Inductive layout : Type := COO | CSR | CSC.

Global Instance layout_eq_dec : EqDecision layout.
Proof. solve_decision. Defined.

(** A stored entry: row, column, value. *)
Definition entry : Type := nat * nat * spec_float.

Record spmatrix : Type := mk_spmatrix {
  sp_format : layout;
  sp_shape : nat * nat;
  sp_entries : list entry        (* in storage order *)
}.

Definition nrows (m : spmatrix) : nat := fst (sp_shape m).
Definition ncols (m : spmatrix) : nat := snd (sp_shape m).

Definition getf (v : list spec_float) (i : nat) : spec_float :=
  default F64.zero (v !! i).

(** One stored entry of the product with a dense operand of [k] columns:
    [y[r, j] += v * x[c, j]] for every column [j] (scipy's [csr_matvecs]
    and [csc_matvecs] both do this, entry by entry in storage order).
    An index outside the array, which scipy refuses when the matrix is
    built, reads 0.0 and writes nothing. *)
Definition axpy_entry (k : nat) (x : list spec_float)
    (y : list spec_float) (e : entry) : list spec_float :=
  let '(r, c, v) := e in
  fold_left (fun y j =>
      <[r * k + j := F64.add (getf y (r * k + j))
                             (F64.mul v (getf x (c * k + j)))]> y)
    (seq 0 k) y.

Definition sp_dot (m : spmatrix) (k : nat) (x : list spec_float)
  : list spec_float :=
  fold_left (axpy_entry k x) (sp_entries m) (repeat F64.zero (nrows m * k)).

(** [m @ x] for a sparse [m] and a dense [x] of one or two dimensions. *)
Definition sp_matmul (m : spmatrix) (x : ndarray) : exn + ndarray :=
  match nd_shape x with
  | [n] =>
      if decide (n = ncols m)
      then inr {| nd_shape := [nrows m]; nd_data := sp_dot m 1 (nd_data x) |}
      else inl (ValueError "dimension mismatch")
  | [n; k] =>
      if decide (n = ncols m)
      then inr {| nd_shape := [nrows m; k]; nd_data := sp_dot m k (nd_data x) |}
      else inl (ValueError "dimension mismatch")
  | _ => inl (ValueError "dimension mismatch")
  end.

(** ** [create_b] *)

(** [xe = np.ones((matrix.shape[1], 1)); b = matrix @ xe; return b] *)
Definition create_b (matrix : spmatrix) : exn + ndarray :=
  let xe := np_ones [snd (sp_shape matrix); 1] in
  let b := sp_matmul matrix xe in
  b.

(** The textbook product, row by row: entry [i] of [A x] is the sum, in
    storage order and starting from 0.0, of [A[i, c] * x[c]] over the stored
    entries of row [i]. *)
Definition row_times (m : spmatrix) (x : list spec_float) (i : nat)
  : spec_float :=
  fold_left (fun acc (e : entry) =>
      let '(r, c, v) := e in
      if decide (r = i) then F64.add acc (F64.mul v (getf x c)) else acc)
    (sp_entries m) F64.zero.

Definition matrix_times_vector (m : spmatrix) (x : list spec_float)
  : list spec_float :=
  map (row_times m x) (seq 0 (nrows m)).

Definition ones_vector (n : nat) : list spec_float := repeat F64.one n.

(** ** Strings *)

Definition LF : string := String (ascii_of_nat 10) "".
Definition CR : string := String (ascii_of_nat 13) "".
Definition DQUOTE : ascii := ascii_of_nat 34.

(** [sep.join(l)] *)
Fixpoint py_join (sep : string) (l : list string) : string :=
  match l with
  | [] => ""
  | [s] => s
  | s :: rest => s ++ sep ++ py_join sep rest
  end.

(** [s.split(sep)] for a one-character separator: never the empty list. *)
Fixpoint py_split (sep : ascii) (s : string) : list string :=
  match s with
  | "" => [""]
  | String c r =>
      if Ascii.eqb c sep then "" :: py_split sep r
      else match py_split sep r with
           | h :: t => String c h :: t
           | [] => [String c ""]
           end
  end.

(** [l[-1]] on the result of a split. *)
Definition py_last (l : list string) : string := List.last l "".

Definition is_digit (c : ascii) : bool :=
  let n := nat_of_ascii c in (48 <=? n)%nat && (n <=? 57)%nat.

Definition digit_value (c : ascii) : Z := Z.of_nat (nat_of_ascii c) - 48.

(** The white space [int] skips around an ASCII literal: tab, line feed,
    vertical tab, form feed, carriage return and space. The separators
    28 to 31 are not skipped. *)
Definition is_space (c : ascii) : bool :=
  let n := nat_of_ascii c in
  ((9 <=? n)%nat && (n <=? 13)%nat) || (n =? 32)%nat.

(** Every character is below 128. *)
Fixpoint is_ascii (s : string) : bool :=
  match s with
  | "" => true
  | String c r => (nat_of_ascii c <? 128)%nat && is_ascii r
  end.

Fixpoint lstrip (s : string) : string :=
  match s with
  | String c r => if is_space c then lstrip r else s
  | "" => ""
  end.

Definition strip (s : string) : string :=
  String.rev (lstrip (String.rev (lstrip s))).

(** Digits with single underscores between them, as [int] reads them. *)
Fixpoint parse_digits (s : string) (acc : Z) (after_digit : bool) : option Z :=
  match s with
  | "" => if after_digit then Some acc else None
  | String c r =>
      if is_digit c then parse_digits r (10 * acc + digit_value c) true
      else if Ascii.eqb c "_"
           then (if after_digit then parse_digits r acc false else None)
           else None
  end.

(** The number of digits of a literal, underscores left out. *)
Fixpoint count_digits (s : string) : nat :=
  match s with
  | "" => 0
  | String c r => if is_digit c then S (count_digits r) else count_digits r
  end.

(** [int(s)] in base 10 on an ASCII string: white space around, an
    optional sign, then digits. [None] stands for the [ValueError] Python
    raises, on a malformed literal or on one with more digits than
    [limit] (the interpreter's limit on integer strings: 4300 unless it was
    changed, 0 for no limit). *)
Definition ascii_int (limit : nat) (s : string) : option Z :=
  let t := strip s in
  let digits :=
    match t with
    | String "+" r | String "-" r => r
    | _ => t
    end in
  if (0 <? limit)%nat && (limit <? count_digits digits)%nat then None
  else
    match t with
    | String "+" r => parse_digits r 0 false
    | String "-" r => Z.opp <$> parse_digits r 0 false
    | _ => parse_digits t 0 false
    end.

(** The order of Python strings: by code point, shorter first on a tie. *)
Definition str_le (a b : string) : Prop := String.leb a b = true.

Global Instance str_le_dec (a b : string) : Decision (str_le a b).
Proof. unfold str_le. apply _. Defined.

(** ** Python objects that matter for comparisons *)

(** A string or a function object, as in [platform.system == 'Linux']. *)
Inductive pyobj : Type :=
| PyStr (s : string)
| PyFunction (qualname : string).

(** [a == b]: a function object is equal to itself only. *)
Definition py_eq (a b : pyobj) : bool :=
  match a, b with
  | PyStr s, PyStr t => String.eqb s t
  | PyFunction f, PyFunction g => String.eqb f g
  | _, _ => false
  end.

(** A number: the [-1] sentinel is an [int], a measured error a [float]. *)
Inductive pynum : Type :=
| PyInt (z : Z)
| PyFloat (f : spec_float).

(** Python compares an [int] and a [float] by their exact values. *)
Definition float_eq_Z (f : spec_float) (z : Z) : bool :=
  match f with
  | S754_zero _ => Z.eqb z 0
  | S754_finite s m e =>
      let sm := cond_Zopp s (Zpos m) in
      if (0 <=? e)%Z then Z.eqb z (sm * 2 ^ e) else Z.eqb (z * 2 ^ (- e)) sm
  | _ => false
  end.

Definition pynum_eq (a b : pynum) : bool :=
  match a, b with
  | PyInt x, PyInt y => Z.eqb x y
  | PyFloat f, PyFloat g => SFeqb f g
  | PyInt x, PyFloat f | PyFloat f, PyInt x => float_eq_Z f x
  end.

(** ** The world and the environment *)

Inductive node : Type :=
| File (text : string)
| Dir.

Inductive event : Type :=
| EvStat (path : string)                          (* [Path.is_file] *)
| EvRead (path : string)                          (* [mmread] opens the file *)
| EvCreate (path : string)                        (* [open(path, 'w')] *)
| EvAppend (path : string)                        (* [open(path, 'a')] *)
| EvGlob (pattern : string)
| EvSolve (library : string) (fmt : layout).      (* a call into a solver *)

(** The file system is a flat map from paths to nodes; the directories
    that hold the files are taken to exist. *)
Record World : Type := mk_World {
  files : gmap string node;
  stdout : list string;
  stdin : list string;
  clock : nat;                  (* readings of the machine's state so far *)
  trace : list event
}.

(** What the libraries outside the repository compute. *)
Record Env : Type := mk_Env {
  mm_parse : string -> exn + spmatrix;            (* [scipy.io.mmread] on a file's text *)
  csr_order : list entry -> list entry;           (* [tocsr]: row-compressed storage order *)
  csc_order : list entry -> list entry;           (* [tocsc]: column-compressed storage order *)
  time_at : nat -> spec_float;                    (* [time.time()] *)
  pypardiso_imported : bool;                      (* did [import pypardiso] succeed *)
  pardiso_spsolve : nat -> spmatrix -> ndarray -> exn + ndarray;
  superlu_spsolve : nat -> spmatrix -> ndarray -> exn + ndarray;
  umfpack_spsolve : nat -> spmatrix -> ndarray -> exn + ndarray;
  np_subtract : ndarray -> ndarray -> exn + ndarray;    (* [a - b], with broadcasting *)
  np_linalg_norm2 : ndarray -> exn + spec_float;        (* [np.linalg.norm(a, ord=2)] *)
  float_str : spec_float -> string;               (* [str] of a float *)
  glob_glob : gmap string node -> string -> list string;
  os_linesep : string;                            (* what text mode writes for a line feed *)
  os_getpid : nat;
  platform_system : string;                       (* what [platform.system()] returns *)
  int_max_str_digits : nat;                       (* [sys.get_int_max_str_digits()] *)
  int_of_unicode : string -> option Z;            (* [int] on text with characters outside ASCII *)
  int_error_text : string -> string               (* the message of [int]'s [ValueError] *)
}.

(** ** The state-and-exception monad *)

Definition M (A : Type) : Type := World -> outcome A * World.

Definition ret {A} (a : A) : M A := fun w => (Returns a, w).

Definition raise {A} (e : exn) : M A := fun w => (Raises e, w).

Definition bind {A B} (c : M A) (k : A -> M B) : M B :=
  fun w => match c w with
           | (Returns a, w') => k a w'
           | (Raises e, w') => (Raises e, w')
           end.

Notation "x <- c ;; k" := (bind c (fun x => k))
  (at level 100, c at next level, right associativity).
Notation "c ;;; k" := (bind c (fun _ => k))
  (at level 100, right associativity).

(** A pure computation that may raise. *)
Definition lift {A} (r : exn + A) : M A :=
  match r with
  | inl e => raise e
  | inr a => ret a
  end.

Definition log_event (e : event) : M unit := fun w =>
  (Returns tt,
   {| files := files w; stdout := stdout w; stdin := stdin w;
      clock := clock w; trace := trace w ++ [e] |}).

(** [print(line)] *)
Definition print (line : string) : M unit := fun w =>
  (Returns tt,
   {| files := files w; stdout := stdout w ++ [line]; stdin := stdin w;
      clock := clock w; trace := trace w |}).

(** Reads the machine's state (time, free memory) and moves it on. *)
Definition tick : M nat := fun w =>
  (Returns (clock w),
   {| files := files w; stdout := stdout w; stdin := stdin w;
      clock := S (clock w); trace := trace w |}).

Definition get_files : M (gmap string node) := fun w => (Returns (files w), w).

Definition put_file (path : string) (n : node) : M unit := fun w =>
  (Returns tt,
   {| files := <[path := n]> (files w); stdout := stdout w; stdin := stdin w;
      clock := clock w; trace := trace w |}).

(** [input(prompt)] *)
Definition input (prompt : string) : M string := fun w =>
  match stdin w with
  | [] =>
      (Raises EOFError,
       {| files := files w; stdout := stdout w ++ [prompt]; stdin := [];
          clock := clock w; trace := trace w |})
  | l :: rest =>
      (Returns l,
       {| files := files w; stdout := stdout w ++ [prompt]; stdin := rest;
          clock := clock w; trace := trace w |})
  end.

(** Reading a local variable that may not have been assigned. *)
Definition read_local {A} (name : string) (v : option A) : M A :=
  match v with
  | Some a => ret a
  | None => raise (UnboundLocalError name)
  end.

(** [for x in l: s = body(x, s)] *)
Fixpoint for_each {A S : Type} (l : list A) (body : A -> S -> M S) (s : S)
  : M S :=
  match l with
  | [] => ret s
  | x :: rest => s' <- body x s ;; for_each rest body s'
  end.

(** [enumerate(l)] *)
Definition enumerate {A : Type} (l : list A) : list (nat * A) :=
  combine (seq 0 (length l)) l.

(** ** The result of one solve *)

Record RunResult : Type := mk_RunResult {
  matrix_name : string;
  matrix_type : string;
  matrix_dimensions : string;
  start_time : spec_float;
  end_time : spec_float;
  relative_error : pynum;
  solver_library : string;
  umfpack_error : Z
}.

(** A cell of a CSV row before it is written. *)
Inductive cell : Type :=
| CStr (s : string)
| CNum (n : pynum).

Section Program.

Variable E : Env.

(** ** [load_matrix] *)

Definition tocsr (m : spmatrix) : spmatrix :=
  {| sp_format := CSR; sp_shape := sp_shape m;
     sp_entries := csr_order E (sp_entries m) |}.

Definition tocsc (m : spmatrix) : spmatrix :=
  {| sp_format := CSC; sp_shape := sp_shape m;
     sp_entries := csc_order E (sp_entries m) |}.

(** [sio.mmread(path)]: opens and parses the file. *)
Definition mmread (path : string) : M spmatrix :=
  log_event (EvRead path) ;;;
  fs <- get_files ;;
  match fs !! path with
  | None => raise (FileNotFoundError path)
  | Some Dir => raise (IsADirectoryError path)
  | Some (File text) => lift (mm_parse E text)
  end.

Definition load_matrix (path matrix_format : string) : M spmatrix :=
  if String.eqb matrix_format "csr" then
    m <- mmread path ;; ret (tocsr m)
  else if String.eqb matrix_format "csc" then
    m <- mmread path ;; ret (tocsc m)
  else
    raise (ValueError
      ("Invalid argument matrix_format. Should be one of 'csr', 'csc', got "
         ++ matrix_format ++ " instead.")).

(** ** [get_relative_error] *)

(** [float(np.linalg.norm(xe - x, ord=2) / np.linalg.norm(xe, ord=2))] *)
Definition get_relative_error (xe x : ndarray) : exn + spec_float :=
  match np_subtract E xe x with
  | inl e => inl e
  | inr d =>
      match np_linalg_norm2 E d with
      | inl e => inl e
      | inr num =>
          match np_linalg_norm2 E xe with
          | inl e => inl e
          | inr den => inr (F64.div num den)
          end
      end
  end.

(** ** [solve_with_profiling] *)

Definition time_time : M spec_float :=
  t <- tick ;; ret (time_at E t).

(** [pypardiso.spsolve(A, b)]: the name [pypardiso] is unbound when the
    import at the top of the file failed. *)
Definition pypardiso_spsolve (A : spmatrix) (b : ndarray) : M ndarray :=
  if pypardiso_imported E then
    log_event (EvSolve "mkl" (sp_format A)) ;;;
    k <- tick ;;
    lift (pardiso_spsolve E k A b)
  else raise (NameError "pypardiso").

(** [scipy.sparse.linalg.spsolve(A, b, use_umfpack=...)] *)
Definition scipy_spsolve (A : spmatrix) (b : ndarray) (use_umfpack : bool)
  : M ndarray :=
  if use_umfpack then
    log_event (EvSolve "umfpack" (sp_format A)) ;;;
    k <- tick ;;
    lift (umfpack_spsolve E k A b)
  else
    log_event (EvSolve "superlu" (sp_format A)) ;;;
    k <- tick ;;
    lift (superlu_spsolve E k A b).

(** [try: x = spsolve(A, b, use_umfpack=True)
     except MemoryError: print(...); umfpack_mem_error = True]:
    the local [x] and the flag after the statement. *)
Definition try_umfpack (A : spmatrix) (b : ndarray)
  : M (option ndarray * bool) :=
  fun w =>
    match scipy_spsolve A b true w with
    | (Returns x, w') => (Returns (Some x, false), w')
    | (Raises MemoryError, w') =>
        (print "Got MemoryError for UMFPACK!" ;;; ret (None, true)) w'
    | (Raises e, w') => (Raises e, w')
    end.

(** [str.format] reads the braces of [{'mkl', 'umfpack', 'superlu'}] in the
    message of the last branch as a replacement field and looks that field
    up among its keyword arguments: building the message raises [KeyError]
    before [ValueError] is constructed. *)
Definition wrong_library_message_error : exn :=
  KeyError "'mkl', 'umfpack', 'superlu'".

Definition solve_with_profiling (A : spmatrix) (b : ndarray)
    (matrix_name matrix_type solver_library : string) : M RunResult :=
  let umfpack_mem_error := false in
  locals <-
    (if String.eqb solver_library "mkl" then
       start_time <- time_time ;;
       x <- pypardiso_spsolve A b ;;
       end_time <- time_time ;;
       ret (Some x, umfpack_mem_error, start_time, end_time)
     else if String.eqb solver_library "superlu" then
       start_time <- time_time ;;
       x <- scipy_spsolve A b false ;;
       end_time <- time_time ;;
       ret (Some x, umfpack_mem_error, start_time, end_time)
     else if String.eqb solver_library "umfpack" then
       start_time <- time_time ;;
       xf <- try_umfpack A b ;;
       end_time <- time_time ;;
       ret (fst xf, snd xf, start_time, end_time)
     else raise wrong_library_message_error) ;;
  let '(x, umfpack_mem_error, start_time, end_time) := locals in
  let xe := np_ones [snd (sp_shape A)] in
  relative_error <-
    (if negb umfpack_mem_error then
       x <- read_local "x" x ;;
       r <- lift (get_relative_error xe x) ;;
       ret (PyFloat r)
     else ret (PyInt (-1))) ;;
  ret {| matrix_name := matrix_name;
         matrix_type := matrix_type;
         matrix_dimensions :=
           pretty (fst (sp_shape A)) ++ "x" ++ pretty (snd (sp_shape A));
         start_time := start_time;
         end_time := end_time;
         relative_error := relative_error;
         solver_library := solver_library;
         umfpack_error := if umfpack_mem_error then 1 else 0 |}.

(** ** [main] *)

(** The load step of the inner loop: the local [A] after
    [if library == 'mkl': A = ... elif library == 'umfpack' or
    library == 'superlu': A = ...]. [A] is unbound when the step starts:
    nothing assigns it before the first iteration and every iteration ends
    with [del A, b]. *)
Definition load_step (library path : string) : M (option spmatrix) :=
  if String.eqb library "mkl" then
    a <- load_matrix path "csr" ;; ret (Some a)
  else if String.eqb library "umfpack" || String.eqb library "superlu" then
    a <- load_matrix path "csc" ;; ret (Some a)
  else ret None.

(** The body of the inner loop. *)
Definition main_iteration (matrices : list string)
    (matrices_type library : string) (i : nat)
    (ip : nat * string) (results : list RunResult) : M (list RunResult) :=
  let '(index, path) := ip in
  let matrix_name := py_last (py_split "/" path) in
  A <- load_step library path ;;
  A <- read_local "A" A ;;
  print ("Iter " ++ pretty (i + 1) ++ ", matrix '" ++ matrix_name ++ "' "
           ++ pretty (index + 1) ++ "/" ++ pretty (length matrices)
           ++ ", shape (" ++ pretty (fst (sp_shape A)) ++ ", "
           ++ pretty (snd (sp_shape A)) ++ ")") ;;;
  b <- lift (create_b A) ;;
  result <- solve_with_profiling A b matrix_name matrices_type library ;;
  print "GC collection finished, next run..." ;;;
  ret (results ++ [result])%list.

(** The body of the outer loop. *)
Definition main_run (matrices : list string)
    (matrices_type library : string) (num_runs : Z)
    (i : nat) (results : list RunResult) : M (list RunResult) :=
  print (LF ++ "## ------------------------ ##") ;;;
  print ("Run " ++ pretty (i + 1) ++ "/" ++ pretty num_runs
           ++ " with all matrices") ;;;
  for_each (enumerate matrices)
    (main_iteration matrices matrices_type library i) results.

Definition main (matrices : list string) (matrices_type library : string)
    (num_runs : Z) : M (list RunResult) :=
  print "Discovered these matrices:" ;;;
  for_each matrices (fun m _ => print m) tt ;;;
  results <-
    for_each (seq 0 (Z.to_nat num_runs))
      (main_run matrices matrices_type library num_runs) [] ;;
  print (LF ++ "Done!") ;;;
  ret results.

(** ** [log_results] *)

Definition csv_fields : list string :=
  ["matrix"; "dimensions"; "type"; "start_time"; "end_time"; "rel_error";
   "system"; "library"; "umfpack_error"].

(** [platform.system]: the attribute itself, a function object. The source
    does not call it. *)
Definition platform_dot_system : pyobj := PyFunction "platform.system".

(** ['ubuntu' if platform.system == 'Linux' else 'windows'] *)
Definition system_type : string :=
  if py_eq platform_dot_system (PyStr "Linux") then "ubuntu" else "windows".

(** ['./{}-{}.csv'.format(system_type, filename)] *)
Definition result_path (filename : string) : string :=
  "./" ++ system_type ++ "-" ++ filename ++ ".csv".

(** Text mode writes [os.linesep] for every line feed. *)
Fixpoint translate_newlines (s : string) : string :=
  match s with
  | "" => ""
  | String c r =>
      if Ascii.eqb c (ascii_of_nat 10)
      then os_linesep E ++ translate_newlines r
      else String c (translate_newlines r)
  end.

(** [pathlib.Path(path).is_file()] *)
Definition is_file (path : string) : M bool :=
  log_event (EvStat path) ;;;
  fs <- get_files ;;
  ret (match fs !! path with Some (File _) => true | _ => false end).

(** [open(path, 'w')]: creates the file or empties it. *)
Definition open_w (path : string) : M unit :=
  log_event (EvCreate path) ;;;
  fs <- get_files ;;
  match fs !! path with
  | Some Dir => raise (IsADirectoryError path)
  | _ => put_file path (File "")
  end.

(** [open(path, 'a')]: creates the file when it is missing. *)
Definition open_a (path : string) : M unit :=
  log_event (EvAppend path) ;;;
  fs <- get_files ;;
  match fs !! path with
  | Some Dir => raise (IsADirectoryError path)
  | Some (File _) => ret tt
  | None => put_file path (File "")
  end.

(** [outfile.write(s)] on a file opened in text mode for writing: the text
    goes to the end of the file. *)
Definition file_write (path : string) (s : string) : M unit :=
  fs <- get_files ;;
  match fs !! path with
  | Some (File text) => put_file path (File (text ++ translate_newlines s))
  | _ => raise (LibraryError "I/O operation on closed file")
  end.

(** The [csv] module with its default dialect: a field is quoted when it
    holds the delimiter, the quote character or a character of the line
    terminator, and quote characters inside it are doubled; a row made of
    one empty field is written as two quotes. *)
Definition csv_special (c : ascii) : bool :=
  Ascii.eqb c "," || Ascii.eqb c DQUOTE
  || Ascii.eqb c (ascii_of_nat 13) || Ascii.eqb c (ascii_of_nat 10).

Fixpoint csv_needs_quotes (s : string) : bool :=
  match s with
  | "" => false
  | String c r => csv_special c || csv_needs_quotes r
  end.

Fixpoint csv_double_quotes (s : string) : string :=
  match s with
  | "" => ""
  | String c r =>
      if Ascii.eqb c DQUOTE
      then String DQUOTE (String DQUOTE (csv_double_quotes r))
      else String c (csv_double_quotes r)
  end.

Definition csv_field (s : string) : string :=
  if csv_needs_quotes s
  then String DQUOTE (csv_double_quotes s ++ String DQUOTE "")
  else s.

Definition csv_line (fields : list string) : string :=
  match fields with
  | [""] => String DQUOTE (String DQUOTE "") ++ CR ++ LF
  | _ => py_join "," (map csv_field fields) ++ CR ++ LF
  end.

(** [str(v)] of a cell. *)
Definition cell_str (c : cell) : string :=
  match c with
  | CStr s => s
  | CNum (PyInt z) => pretty z
  | CNum (PyFloat f) => float_str E f
  end.

(** [rowdict.get(key, '')] *)
Fixpoint dict_get (row : list (string * cell)) (key : string) : string :=
  match row with
  | [] => ""
  | (k, v) :: rest => if String.eqb k key then cell_str v else dict_get rest key
  end.

(** The dictionary [log_results] builds for one result. *)
Definition csv_row (result : RunResult) : list (string * cell) :=
  [("matrix", CStr (matrix_name result));
   ("dimensions", CStr (matrix_dimensions result));
   ("type", CStr (matrix_type result));
   ("start_time", CNum (PyFloat (start_time result)));
   ("end_time", CNum (PyFloat (end_time result)));
   ("rel_error", CNum (relative_error result));
   ("system", CStr system_type);
   ("library", CStr (solver_library result));
   ("umfpack_error", CNum (PyInt (umfpack_error result)))].

(** [csv.DictWriter(outfile, fieldnames=csv_fields).writerow(row)] *)
Definition dictwriter_writerow (path : string) (row : list (string * cell))
  : M unit :=
  file_write path (csv_line (map (dict_get row) csv_fields)).

Definition log_results (results : list RunResult) (filename : string)
  : M unit :=
  match results with
  | [] => ret tt
  | _ :: _ =>
      let filepath := result_path filename in
      exists_ <- is_file filepath ;;
      (if negb exists_ then
         open_w filepath ;;;
         file_write filepath (py_join "," csv_fields ++ LF)
       else ret tt) ;;;
      let csv_rows := map csv_row results in
      open_a filepath ;;;
      print ("Saving to " ++ filepath) ;;;
      for_each csv_rows (fun row _ => dictwriter_writerow filepath row) tt ;;;
      print "Saved!"
  end.

(** ** The script *)

(** [sorted(l)] on strings *)
Definition sorted (l : list string) : list string :=
  merge_sort str_le l.

(** [glob.glob(pattern)] *)
Definition glob (pattern : string) : M (list string) :=
  log_event (EvGlob pattern) ;;;
  fs <- get_files ;;
  ret (glob_glob E fs pattern).

(** [while not ready: ...]: every turn reads one line, and [input] raises
    [EOFError] when none is left, so one more turn than there are lines
    is enough. *)
Fixpoint wait_ready (turns : nat) : M unit :=
  match turns with
  | O => raise EOFError
  | S t =>
      user_is_ready <- input "Are you ready? (y/n)" ;;
      if String.eqb user_is_ready "y" then ret tt else wait_ready t
  end.

Definition library_names : list string := ["umfpack"; "superlu"; "mkl"].

(** [int(s)]: the ASCII reading above, and for text with characters
    outside ASCII (the digits and spaces of other scripts) what the
    interpreter makes of it. [None] stands for [ValueError]. *)
Definition py_int (s : string) : option Z :=
  if is_ascii s then ascii_int (int_max_str_digits E) s
  else int_of_unicode E s.

Definition script (argv : list string) : M unit :=
  match argv with
  | [_; a1; a2] =>
      let library := a1 in
      if negb (existsb (String.eqb library) library_names) then
        raise (ValueError
          ("Accepted values for library are: 'mkl', 'superlu', 'umfpack', got "
             ++ library ++ " instead."))
      else
        match py_int a2 with
        | None => raise (ValueError (int_error_text E a2))
        | Some n_runs =>
            if negb (1 <=? n_runs)%Z then
              raise (ValueError
                ("Number of runs must be >= 1, got " ++ pretty n_runs
                   ++ " instead"))
            else
              print (LF ++ "------------------------------") ;;;
              print ("Current process PID is: " ++ pretty (os_getpid E)) ;;;
              print ("------------------------------" ++ LF) ;;;
              (fun w => wait_ready (S (length (stdin w))) w) ;;;
              found <- glob "./data/matrici_def_pos/*.mtx" ;;
              let symmetric_matrices := sorted found in
              results_sdf <- main symmetric_matrices "def_pos" library n_runs ;;
              found <- glob "./data/matrici_non_def_pos/*.mtx" ;;
              let unsym_matrices := sorted found in
              results_unsym <-
                main unsym_matrices "non_def_pos" library n_runs ;;
              log_results results_sdf "python-result-log" ;;;
              log_results results_unsym "python-result-log"
        end
  | _ =>
      raise (ValueError
        ("Please, provide a choice for the solver library an run number:"
           ++ "you should call this script as 'python scratch.py solver runs' where solver is {'mkl', 'superlu', 'umfpack'} and runs an integer > 0."))
  end.

End Program.

(** ** numpy on one-dimensional arrays

    What [a - b] and [np.linalg.norm(a, ord=2)] compute for vectors of one
    shape: the element-wise difference and [sqrt(dot(a, a))]. They serve as
    the numpy of the concrete environments below. *)

Definition vector_dot (v w : list spec_float) : spec_float :=
  fold_left F64.add (zip_with F64.mul v w) F64.zero.

Definition vector_subtract (a b : ndarray) : exn + ndarray :=
  match nd_shape a, nd_shape b with
  | [n], [k] =>
      if decide (n = k)
      then inr {| nd_shape := [n];
                  nd_data := zip_with F64.sub (nd_data a) (nd_data b) |}
      else inl (ValueError "operands could not be broadcast together")
  | _, _ => inl (ValueError "operands could not be broadcast together")
  end.

Definition vector_norm2 (a : ndarray) : exn + spec_float :=
  match nd_shape a with
  | [_] => inr (F64.sqrt (vector_dot (nd_data a) (nd_data a)))
  | _ => inl (ValueError "Improper number of dimensions to norm.")
  end.

(** ** Concrete environments *)

Module Demo.

(** The 2 x 2 matrix with 2.0 on its diagonal. *)
Definition two : spec_float := Eval vm_compute in F64.add F64.one F64.one.

Definition diag2 : spmatrix :=
  {| sp_format := COO; sp_shape := (2, 2);
     sp_entries := [(0, 0, two); (1, 1, two)] |}.

(** A 1 x 1 matrix whose only entry is 0.0: a singular system. *)
Definition zero1 : spmatrix :=
  {| sp_format := COO; sp_shape := (1, 1);
     sp_entries := [(0, 0, F64.zero)] |}.

Definition parse (text : string) : exn + spmatrix :=
  if String.eqb text "diag2" then inr diag2
  else if String.eqb text "zero1" then inr zero1
  else inl (ValueError "not a Matrix Market file").

(** Every solver answers with the all-ones vector. *)
Definition exact_solver (k : nat) (A : spmatrix) (b : ndarray)
  : exn + ndarray := inr (np_ones [snd (sp_shape A)]).

(** A solver that runs out of memory. *)
Definition oom_solver (k : nat) (A : spmatrix) (b : ndarray)
  : exn + ndarray := inl MemoryError.

(** A solver that meets a singular matrix: scipy warns and fills the
    answer with NaN. *)
Definition singular_solver (k : nat) (A : spmatrix) (b : ndarray)
  : exn + ndarray :=
  inr {| nd_shape := [snd (sp_shape A)];
         nd_data := repeat F64.nan (snd (sp_shape A)) |}.

Definition env_with (umfpack superlu : nat -> spmatrix -> ndarray -> exn + ndarray)
  : Env :=
  {| mm_parse := parse;
     csr_order := fun l => l;
     csc_order := fun l => l;
     time_at := fun _ => F64.zero;
     pypardiso_imported := true;
     pardiso_spsolve := exact_solver;
     superlu_spsolve := superlu;
     umfpack_spsolve := umfpack;
     np_subtract := vector_subtract;
     np_linalg_norm2 := vector_norm2;
     float_str := fun _ => "0.0";
     glob_glob := fun _ _ => [];
     os_linesep := LF;
     os_getpid := 1;
     platform_system := "Linux";
     int_max_str_digits := 4300;
     int_of_unicode := fun _ => None;
     int_error_text := fun s =>
       "invalid literal for int() with base 10: '" ++ s ++ "'" |}.

Definition env : Env := env_with exact_solver exact_solver.
Definition oom_env : Env := env_with oom_solver exact_solver.
Definition singular_env : Env := env_with exact_solver singular_solver.

Definition world (fs : gmap string node) : World :=
  {| files := fs; stdout := []; stdin := []; clock := 0; trace := [] |}.

(** Two matrix files and nothing else. *)
Definition disk : gmap string node :=
  <["./data/a.mtx" := File "diag2"]> (<["./data/z.mtx" := File "zero1"]> ∅).

Definition result0 : RunResult :=
  {| matrix_name := "a.mtx"; matrix_type := "def_pos";
     matrix_dimensions := "2x2"; start_time := F64.zero;
     end_time := F64.zero; relative_error := PyFloat F64.zero;
     solver_library := "umfpack"; umfpack_error := 0 |}.

End Demo.

(** ** Notions the statements below use *)

Definition valid_library (library : string) : Prop :=
  library = "mkl" \/ library = "superlu" \/ library = "umfpack".

(** The storage layout each backend needs. *)
Definition required_layout (library : string) : layout :=
  if String.eqb library "mkl" then CSR else CSC.

(** The matrix as the load step hands it to the backend named [library]. *)
Definition loaded (E : Env) (library : string) (m : spmatrix) : spmatrix :=
  if String.eqb library "mkl" then tocsr E m else tocsc E m.

(** The right-hand side of a matrix: what [create_b] returns. *)
Definition rhs (A : spmatrix) : ndarray :=
  {| nd_shape := [nrows A; 1];
     nd_data := matrix_times_vector A (ones_vector (ncols A)) |}.

(** The answer of the backend named [library]. *)
Definition backend (E : Env) (library : string)
  : nat -> spmatrix -> ndarray -> exn + ndarray :=
  if String.eqb library "mkl" then pardiso_spsolve E
  else if String.eqb library "superlu" then superlu_spsolve E
  else umfpack_spsolve E.

(** numpy's norm is never below zero: its sign bit is clear, or it is NaN. *)
Definition norm_not_negative (E : Env) : Prop :=
  forall a f, np_linalg_norm2 E a = inr f -> F64.not_negative f.

(** An exception that comes from outside the harness: a file that cannot be
    opened, the missing pypardiso module, or an error raised by a library
    call. *)
Definition environment_error (E : Env) (e : exn) : Prop :=
  (exists p, e = FileNotFoundError p) \/
  (exists p, e = IsADirectoryError p) \/
  e = NameError "pypardiso" \/
  (exists text, mm_parse E text = inl e) \/
  (exists k A b, pardiso_spsolve E k A b = inl e) \/
  (exists k A b, superlu_spsolve E k A b = inl e) \/
  (exists k A b, umfpack_spsolve E k A b = inl e) \/
  (exists a b, np_subtract E a b = inl e) \/
  (exists a, np_linalg_norm2 E a = inl e).

(** The header line and the line of one result, as they reach the file. *)
Definition header_text (E : Env) : string :=
  translate_newlines E (py_join "," csv_fields ++ LF).

Definition row_text (E : Env) (r : RunResult) : string :=
  translate_newlines E
    (csv_line
       [cell_str E (CStr (matrix_name r));
        cell_str E (CStr (matrix_dimensions r));
        cell_str E (CStr (matrix_type r));
        float_str E (start_time r);
        float_str E (end_time r);
        cell_str E (CNum (relative_error r));
        system_type;
        solver_library r;
        pretty (umfpack_error r)]).

Fixpoint rows_text (E : Env) (rs : list RunResult) : string :=
  match rs with
  | [] => ""
  | r :: rest => row_text E r ++ rows_text E rest
  end.

(** The world after [ticks] more readings of the clock, the events [evs]
    and the printed lines [lines]. *)
Definition world_after (w : World) (ticks : nat) (evs : list event)
    (lines : list string) : World :=
  {| files := files w; stdout := stdout w ++ lines; stdin := stdin w;
     clock := ticks + clock w; trace := trace w ++ evs |}.

(** The world after the node at [path] is replaced by [n]. *)
Definition write_file (w : World) (path : string) (n : node) : World :=
  {| files := <[path := n]> (files w); stdout := stdout w; stdin := stdin w;
     clock := clock w; trace := trace w |}.

(** The record [solve_with_profiling] builds when the first reading of the
    clock is number [t0]. *)
Definition measured (E : Env) (A : spmatrix)
    (name type library : string) (t0 : nat) (err : pynum) (flag : Z)
  : RunResult :=
  {| matrix_name := name;
     matrix_type := type;
     matrix_dimensions :=
       pretty (fst (sp_shape A)) ++ "x" ++ pretty (snd (sp_shape A));
     start_time := time_at E t0;
     end_time := time_at E (S (S t0));
     relative_error := err;
     solver_library := library;
     umfpack_error := flag |}.

(** The one library error the harness handles. *)
Definition handled (library : string) (e : exn) : bool :=
  String.eqb library "umfpack"
  && match e with MemoryError => true | _ => false end.

(** A result that carries the caller's problem class and backend name. *)
Definition right_result (type library : string) (r : RunResult) : Prop :=
  matrix_type r = type /\ solver_library r = library.

(** The events of one full pass over the matrices. *)
Definition pass_events (library : string) (matrices : list string)
  : list event :=
  flat_map (fun p => [EvRead p; EvSolve library (required_layout library)])
    matrices.

(** A computation that leaves the file system and the standard input as
    they were, whether it returns or raises. *)
Definition read_only {A : Type} (c : M A) : Prop :=
  forall w, files (snd (c w)) = files w /\ stdin (snd (c w)) = stdin w.

(** A computation that leaves the file system as it was, whether it
    returns or raises. *)
Definition keeps_files {A : Type} (c : M A) : Prop :=
  forall w, files (snd (c w)) = files w.

(** A computation that changes the file system only when it returns. *)
Definition writes_only_on_return {A : Type} (c : M A) : Prop :=
  forall w e w', c w = (Raises e, w') -> files w' = files w.

(** The prompt of the script and the world after it was shown [prompts]
    times and the standard input was read down to [rest]. *)
Definition ready_prompt : string := "Are you ready? (y/n)".

Definition after_input (w : World) (prompts : nat) (rest : list string)
  : World :=
  {| files := files w; stdout := stdout w ++ repeat ready_prompt prompts;
     stdin := rest; clock := clock w; trace := trace w |}.

(** The environment with the outcome of [import pypardiso] replaced. *)
Definition set_pypardiso (E : Env) (imported : bool) : Env :=
  {| mm_parse := mm_parse E;
     csr_order := csr_order E;
     csc_order := csc_order E;
     time_at := time_at E;
     pypardiso_imported := imported;
     pardiso_spsolve := pardiso_spsolve E;
     superlu_spsolve := superlu_spsolve E;
     umfpack_spsolve := umfpack_spsolve E;
     np_subtract := np_subtract E;
     np_linalg_norm2 := np_linalg_norm2 E;
     float_str := float_str E;
     glob_glob := glob_glob E;
     os_linesep := os_linesep E;
     os_getpid := os_getpid E;
     platform_system := platform_system E;
     int_max_str_digits := int_max_str_digits E;
     int_of_unicode := int_of_unicode E;
     int_error_text := int_error_text E |}.

(** The environment with the answers of [glob.glob] replaced. *)
Definition set_glob (E : Env)
    (g : gmap string node -> string -> list string) : Env :=
  {| mm_parse := mm_parse E;
     csr_order := csr_order E;
     csc_order := csc_order E;
     time_at := time_at E;
     pypardiso_imported := pypardiso_imported E;
     pardiso_spsolve := pardiso_spsolve E;
     superlu_spsolve := superlu_spsolve E;
     umfpack_spsolve := umfpack_spsolve E;
     np_subtract := np_subtract E;
     np_linalg_norm2 := np_linalg_norm2 E;
     float_str := float_str E;
     glob_glob := g;
     os_linesep := os_linesep E;
     os_getpid := os_getpid E;
     platform_system := platform_system E;
     int_max_str_digits := int_max_str_digits E;
     int_of_unicode := int_of_unicode E;
     int_error_text := int_error_text E |}.

(** The string holds no ['/']. *)
Fixpoint no_slash (s : string) : bool :=
  match s with
  | "" => true
  | String c r => negb (Ascii.eqb c "/") && no_slash r
  end.

(** The two corpora of the script and the name of its log. *)
Definition def_pos_pattern : string := "./data/matrici_def_pos/*.mtx".
Definition non_def_pos_pattern : string := "./data/matrici_non_def_pos/*.mtx".
Definition log_name : string := "python-result-log".

(** A directory search that finds [def_pos] for the first corpus and
    [non_def_pos] for the second. *)
Definition found_corpora (def_pos non_def_pos : list string)
  : gmap string node -> string -> list string :=
  fun _ pattern =>
    if String.eqb pattern def_pos_pattern then def_pos else non_def_pos.

(** The two lists of paths the script runs, on the file system [fs]. *)
Definition symmetric_matrices (E : Env) (fs : gmap string node) : list string :=
  sorted (glob_glob E fs def_pos_pattern).
Definition unsym_matrices (E : Env) (fs : gmap string node) : list string :=
  sorted (glob_glob E fs non_def_pos_pattern).

(** The file name of a path: the part after its last ['/']. *)
Definition file_name (path : string) : string := py_last (py_split "/" path).

(** The solve of the system the program builds from [A] completes when the
    backend named [library] is called as reading number [k] of the
    machine's state: the backend is there, and on [A] and its right-hand
    side it returns an answer whose relative error numpy can compute, or
    UMFPACK runs out of memory. Nothing is asked of the backend on other
    systems or at other moments. *)
Definition solve_completes (E : Env) (library : string) (k : nat)
    (A : spmatrix) : Prop :=
  (library = "mkl" -> pypardiso_imported E = true) /\
  forall b, create_b A = inr b ->
    match backend E library k A b with
    | inr x =>
        exists f, get_relative_error E (np_ones [snd (sp_shape A)]) x = inr f
    | inl e => library = "umfpack" /\ e = MemoryError
    end.

(** The record [r] is the measurement of the matrix [m] parsed from [path]:
    it carries the file name, the problem class and the library, and its
    relative error and flag come from the answer of the backend, called as
    reading number [k], to the matrix in the backend's layout and the
    right-hand side [create_b] builds from it. *)
Definition measures (E : Env) (library type : string) (k : nat)
    (path : string) (m : spmatrix) (r : RunResult) : Prop :=
  let A := loaded E library m in
  matrix_name r = file_name path
  /\ matrix_type r = type
  /\ solver_library r = library
  /\ exists b,
       create_b A = inr b
       /\ ((exists x f,
              backend E library k A b = inr x
              /\ get_relative_error E (np_ones [snd (sp_shape A)]) x = inr f
              /\ relative_error r = PyFloat f
              /\ umfpack_error r = 0%Z)
           \/ (library = "umfpack"
               /\ backend E library k A b = inl MemoryError
               /\ relative_error r = PyInt (-1)
               /\ umfpack_error r = 1%Z)).

(** The iteration over [path] can complete when its solve is reading
    number [k]: the path names a file that parses, and the solve of the
    parsed matrix completes. *)
Definition iteration_ready (E : Env) (fs : gmap string node)
    (library : string) (k : nat) (path : string) : Prop :=
  exists text m,
    fs !! path = Some (File text)
    /\ mm_parse E text = inr m
    /\ solve_completes E library k (loaded E library m).

Definition measured_from (E : Env) (fs : gmap string node)
    (library type : string) (k : nat) (path : string) (r : RunResult) : Prop :=
  exists text m,
    fs !! path = Some (File text)
    /\ mm_parse E text = inr m
    /\ measures E library type k path m r.

(** One pass over [paths] that starts after [t0] readings of the machine's
    state. An iteration that completes reads the state three times (start
    time, solve, end time), so the solve of the matrix at position [j] is
    reading number [t0 + 3 * j + 1]. *)
Definition pass_ready (E : Env) (fs : gmap string node) (library : string)
    (t0 : nat) (paths : list string) : Prop :=
  forall j p, paths !! j = Some p ->
    iteration_ready E fs library (t0 + 3 * j + 1) p.

(** [runs] passes over [paths], one after the other. *)
Definition run_ready (E : Env) (fs : gmap string node) (library : string)
    (t0 : nat) (paths : list string) (runs : nat) : Prop :=
  forall i, i < runs ->
    pass_ready E fs library (t0 + 3 * (i * length paths)) paths.

Module Lab.

(** A solver that refuses a matrix that is not square, answers a 2 x 2
    system with the all-ones vector and any other system, taken to be
    singular, with NaN. *)
Definition solver (k : nat) (A : spmatrix) (b : ndarray) : exn + ndarray :=
  if negb (fst (sp_shape A) =? snd (sp_shape A))%nat
  then inl (ValueError "matrix must be square")
  else if (fst (sp_shape A) =? 2)%nat
  then inr (np_ones [snd (sp_shape A)])
  else inr {| nd_shape := [snd (sp_shape A)];
              nd_data := repeat F64.nan (snd (sp_shape A)) |}.

(** [str] of a float, on the values the examples print. *)
Definition show_float (f : spec_float) : string :=
  match f with
  | S754_nan => "nan"
  | S754_infinity s => if s then "-inf" else "inf"
  | S754_zero s => if s then "-0.0" else "0.0"
  | S754_finite _ _ _ => if SFeqb f F64.one then "1.0" else "finite"
  end.

Definition env : Env :=
  {| mm_parse := Demo.parse;
     csr_order := fun l => l;
     csc_order := fun l => l;
     time_at := fun _ => F64.zero;
     pypardiso_imported := true;
     pardiso_spsolve := solver;
     superlu_spsolve := solver;
     umfpack_spsolve := solver;
     np_subtract := vector_subtract;
     np_linalg_norm2 := vector_norm2;
     float_str := show_float;
     glob_glob := fun _ _ => [];
     os_linesep := LF;
     os_getpid := 1;
     platform_system := "Linux";
     int_max_str_digits := 4300;
     int_of_unicode := fun _ => None;
     int_error_text := fun s =>
       "invalid literal for int() with base 10: '" ++ s ++ "'" |}.

(** A session on two corpora of one matrix each, with an operator who
    answers [n] and then [y]. *)
Definition session_env : Env :=
  set_glob env (found_corpora ["./data/a.mtx"] ["./data/z.mtx"]).

Definition session_world : World :=
  {| files := Demo.disk; stdout := []; stdin := ["n"; "y"]; clock := 0;
     trace := [] |}.

(** A matrix of three rows and two columns. *)
Definition tall : spmatrix :=
  {| sp_format := CSC; sp_shape := (3, 2); sp_entries := [] |}.

End Lab.

(** Two string literals differ. *)
Ltac str_neq := let H := fresh in intro H; inversion H.

(** Rewrite the reading at which a solve is made. *)
Ltac at_reading k' :=
  match goal with
  | |- measured_from _ _ _ _ ?k _ _ => replace k with k' by (simpl; lia)
  | |- iteration_ready _ _ _ ?k _ => replace k with k' by (simpl; lia)
  end.


(** * Properties *)

(** ** Generic facts about the monad *)

Lemma bind_returns {A B} (c : M A) (k : A -> M B) w a w' :
  c w = (Returns a, w') -> bind c k w = k a w'.
Proof. intros H. unfold bind. now rewrite H. Qed.

Lemma bind_raises {A B} (c : M A) (k : A -> M B) w e w' :
  c w = (Raises e, w') -> bind c k w = (Raises e, w').
Proof. intros H. unfold bind. now rewrite H. Qed.

Lemma for_each_cons_returns {A S} (x : A) rest (body : A -> S -> M S) s w s' w' :
  body x s w = (Returns s', w') ->
  for_each (x :: rest) body s w = for_each rest body s' w'.
Proof. intros H. simpl. now apply bind_returns. Qed.

Lemma for_each_cons_raises {A S} (x : A) rest (body : A -> S -> M S) s w e w' :
  body x s w = (Raises e, w') ->
  for_each (x :: rest) body s w = (Raises e, w').
Proof. intros H. simpl. now apply bind_raises. Qed.

(** ** [load_matrix] *)

Lemma load_matrix_other_layout (E : Env) path matrix_format w :
  matrix_format <> "csr" -> matrix_format <> "csc" ->
  load_matrix E path matrix_format w
  = (Raises (ValueError
       ("Invalid argument matrix_format. Should be one of 'csr', 'csc', got "
          ++ matrix_format ++ " instead.")), w).
Proof.
  intros Hcsr Hcsc. unfold load_matrix.
  destruct (String.eqb_spec matrix_format "csr") as [->|_]; [congruence|].
  destruct (String.eqb_spec matrix_format "csc") as [->|_]; [congruence|].
  reflexivity.
Qed.

(** C4, as amended. For every layout argument other than ['csr'] and
    ['csc'], [load_matrix] raises [ValueError] with a message that names the
    argument, and it does so before any file I/O: the world, its trace of
    file accesses included, is left exactly as it was. *)
Theorem load_matrix_rejects_other_layouts
    (E : Env) (path matrix_format : string) (w : World) :
  matrix_format <> "csr" -> matrix_format <> "csc" ->
  exists msg,
    load_matrix E path matrix_format w = (Raises (ValueError msg), w).
Proof.
  intros Hcsr Hcsc. eexists. now apply load_matrix_other_layout.
Qed.

Lemma load_matrix_rejects_other_layouts_witness :
  exists msg,
    load_matrix Demo.env "./data/a.mtx" "coo" (Demo.world Demo.disk)
    = (Raises (ValueError msg), Demo.world Demo.disk).
Proof.
  apply (load_matrix_rejects_other_layouts Demo.env "./data/a.mtx" "coo");
    str_neq.
Defined.

(** C4, as stated, fails: the exception is never the [InvalidMatrixFormat]
    that the source declares. *)
Lemma load_matrix_never_raises_InvalidMatrixFormat :
  ~ (forall (E : Env) (path matrix_format : string) (w : World),
       matrix_format <> "csr" -> matrix_format <> "csc" ->
       exists msg w',
         load_matrix E path matrix_format w
         = (Raises (InvalidMatrixFormat msg), w')).
Proof.
  intros H.
  destruct (H Demo.env "./data/a.mtx" "coo" (Demo.world Demo.disk))
    as (msg & w' & Heq); [str_neq | str_neq |].
  rewrite load_matrix_other_layout in Heq by str_neq.
  discriminate.
Qed.

(** ** The platform tag *)

(** C2 at the failing input. On a machine whose OS family is Linux the tag
    is ['windows'], and so is the path of the result file: the source
    compares the function object [platform.system], not its result, with
    ['Linux']. *)
Theorem result_path_on_linux :
  platform_system Demo.env = "Linux"
  /\ system_type = "windows"
  /\ result_path "python-result-log" = "./windows-python-result-log.csv".
Proof. repeat split. Qed.

(** ** [log_results] on nothing *)

(** C6. [log_results] on an empty sequence returns at once and leaves the
    world as it was: no file is created, none is modified, none is even
    looked at. *)
Theorem log_results_empty_is_noop (E : Env) (filename : string) (w : World) :
  log_results E [] filename w = (Returns tt, w)
  /\ (forall p, files (snd (log_results E [] filename w)) !! p = files w !! p)
  /\ trace (snd (log_results E [] filename w)) = trace w.
Proof.
  assert (log_results E [] filename w = (Returns tt, w)) as Hrun
    by reflexivity.
  rewrite Hrun. split; [reflexivity|]. split; [intros p|]; reflexivity.
Qed.

(** ** The trial count *)

Lemma script_nonpositive_runs (E : Env) prog library runs n w :
  py_int E runs = Some n -> (n <= 0)%Z ->
  script E [prog; library; runs] w
  = (Raises (ValueError
       (if existsb (String.eqb library) library_names
        then "Number of runs must be >= 1, got " ++ pretty n ++ " instead"
        else "Accepted values for library are: 'mkl', 'superlu', 'umfpack', got "
               ++ library ++ " instead.")), w).
Proof.
  intros Hint Hn. unfold script.
  destruct (existsb (String.eqb library) library_names); simpl; [|reflexivity].
  rewrite Hint.
  destruct (Z.leb_spec 1 n); [lia|]. reflexivity.
Qed.

(** C9. When the trial count given on the command line reads as an integer
    that is zero or negative, the script raises [ValueError] with a message
    that says what is wrong, and the world is untouched: nothing was
    printed, asked, searched or loaded. For a valid library name the message
    is the one about the number of runs. *)
Theorem script_rejects_nonpositive_runs
    (E : Env) (prog library runs : string) (n : Z) (w : World) :
  py_int E runs = Some n -> (n <= 0)%Z ->
  exists msg,
    script E [prog; library; runs] w = (Raises (ValueError msg), w)
    /\ (In library library_names ->
        msg = "Number of runs must be >= 1, got " ++ pretty n ++ " instead").
Proof.
  intros Hint Hn. eexists. split.
  - exact (script_nonpositive_runs E prog library runs n w Hint Hn).
  - intros Hin.
    assert (existsb (String.eqb library) library_names = true) as ->; [|reflexivity].
    apply existsb_exists. exists library. split; [assumption|].
    apply String.eqb_refl.
Qed.

Lemma script_rejects_nonpositive_runs_witness :
  (exists msg,
     script Demo.env ["solver.py"; "umfpack"; "0"] (Demo.world Demo.disk)
     = (Raises (ValueError msg), Demo.world Demo.disk)
     /\ (In "umfpack" library_names ->
         msg = "Number of runs must be >= 1, got " ++ pretty 0%Z ++ " instead"))
  /\ (exists msg,
     script Demo.env ["solver.py"; "mkl"; "-5"] (Demo.world Demo.disk)
     = (Raises (ValueError msg), Demo.world Demo.disk)
     /\ (In "mkl" library_names ->
         msg = "Number of runs must be >= 1, got " ++ pretty (-5)%Z ++ " instead")).
Proof.
  split.
  - apply (script_rejects_nonpositive_runs Demo.env "solver.py" "umfpack" "0" 0);
      [reflexivity | lia].
  - apply (script_rejects_nonpositive_runs Demo.env "solver.py" "mkl" "-5" (-5));
      [reflexivity | lia].
Defined.

(** ** [create_b] *)

Lemma axpy_entry_length k x y e : length (axpy_entry k x y e) = length y.
Proof.
  destruct e as [[r c] v]. unfold axpy_entry.
  generalize (seq 0 k). intros js. revert y.
  induction js as [|j js IH]; intros y; simpl; [reflexivity|].
  rewrite IH. apply length_insert.
Qed.

Lemma sp_fold_length k x es y :
  length (fold_left (axpy_entry k x) es y) = length y.
Proof.
  revert y. induction es as [|e es IH]; intros y; simpl; [reflexivity|].
  rewrite IH. apply axpy_entry_length.
Qed.

Lemma sp_dot_length m k x : length (sp_dot m k x) = nrows m * k.
Proof. unfold sp_dot. rewrite sp_fold_length. apply repeat_length. Qed.

Lemma axpy_entry_one x y r c v :
  axpy_entry 1 x y (r, c, v)
  = <[r := F64.add (getf y r) (F64.mul v (getf x c))]> y.
Proof.
  unfold axpy_entry. simpl.
  now rewrite !Nat.mul_1_r, !Nat.add_0_r.
Qed.

Lemma getf_lookup (y : list spec_float) i :
  i < length y -> y !! i = Some (getf y i).
Proof.
  intros Hi. unfold getf.
  destruct (lookup_lt_is_Some_2 y i Hi) as [v ->]. reflexivity.
Qed.

Lemma getf_insert (y : list spec_float) r i v :
  i < length y ->
  getf (<[r := v]> y) i = if decide (r = i) then v else getf y i.
Proof.
  intros Hi. unfold getf. destruct (decide (r = i)) as [->|Hne].
  - now rewrite list_lookup_insert_eq.
  - now rewrite list_lookup_insert_ne.
Qed.

(** The accumulation loop over the stored entries computes every row's sum. *)
Lemma sp_fold_lookup x es : forall (y : list spec_float) i,
  i < length y ->
  fold_left (axpy_entry 1 x) es y !! i
  = Some (fold_left (fun acc (e : entry) =>
            let '(r, c, v) := e in
            if decide (r = i) then F64.add acc (F64.mul v (getf x c)) else acc)
          es (getf y i)).
Proof.
  induction es as [|[[r c] v] es IH]; intros y i Hi; cbn [fold_left].
  - now apply getf_lookup.
  - rewrite IH by now rewrite axpy_entry_length.
    rewrite axpy_entry_one, getf_insert by assumption.
    destruct (decide (r = i)) as [->|Hne]; reflexivity.
Qed.

Lemma getf_zeros n i : getf (repeat F64.zero n) i = F64.zero.
Proof.
  unfold getf. destruct (repeat F64.zero n !! i) as [v|] eqn:Hv; [|reflexivity].
  simpl. apply list_elem_of_lookup_2, list_elem_of_In, repeat_spec in Hv.
  assumption.
Qed.

Lemma sp_dot_rows m x : sp_dot m 1 x = matrix_times_vector m x.
Proof.
  apply list_eq. intros i. unfold matrix_times_vector.
  rewrite list_lookup_fmap.
  destruct (decide (i < nrows m)) as [Hi|Hi].
  - rewrite lookup_seq_lt by assumption. simpl.
    unfold sp_dot. rewrite sp_fold_lookup.
    + now rewrite getf_zeros.
    + rewrite repeat_length. lia.
  - rewrite lookup_seq_ge by lia. simpl.
    apply lookup_ge_None. rewrite sp_dot_length. lia.
Qed.

Lemma create_b_returns (matrix : spmatrix) :
  create_b matrix
  = inr {| nd_shape := [nrows matrix; 1];
           nd_data := matrix_times_vector matrix (ones_vector (ncols matrix)) |}.
Proof.
  unfold create_b, sp_matmul, np_ones. simpl.
  rewrite Nat.mul_1_r, sp_dot_rows.
  case_decide as Hc; [reflexivity | now elim Hc].
Qed.

Example create_b_diag2 :
  create_b Demo.diag2
  = inr {| nd_shape := [2; 1]; nd_data := [Demo.two; Demo.two] |}.
Proof. vm_compute. reflexivity. Qed.

(** C3. For every matrix, [create_b] returns (it never raises) the product
    of the matrix with the all-ones vector whose length is the matrix's
    column count: a column of as many entries as the matrix has rows, entry
    [i] being the sum over row [i] of [A[i, c] * 1.0]. The result depends on
    the shape and the stored entries only, not on the storage-layout tag. *)
Theorem create_b_is_matrix_times_ones (matrix : spmatrix) :
  exists b,
    create_b matrix = inr b
    /\ nd_shape b = [nrows matrix; 1]
    /\ length (ones_vector (ncols matrix)) = ncols matrix
    /\ nd_data b = matrix_times_vector matrix (ones_vector (ncols matrix))
    /\ length (nd_data b) = nrows matrix
    /\ forall fmt,
         create_b {| sp_format := fmt; sp_shape := sp_shape matrix;
                     sp_entries := sp_entries matrix |}
         = create_b matrix.
Proof.
  eexists. split; [apply create_b_returns|]. simpl.
  split; [reflexivity|]. split; [apply repeat_length|].
  split; [reflexivity|]. split.
  - unfold matrix_times_vector. now rewrite length_map, length_seq.
  - intros fmt. now rewrite !create_b_returns.
Qed.

(** ** [solve_with_profiling] *)

Lemma world_after_nil w : world_after w 0 [] [] = w.
Proof. destruct w. unfold world_after. simpl. now rewrite !app_nil_r. Qed.

Lemma solve_with_profiling_valid (E : Env) A b name type library w :
  valid_library library ->
  (library = "mkl" -> pypardiso_imported E = true) ->
  solve_with_profiling E A b name type library w
  = match backend E library (S (clock w)) A b with
    | inr x =>
        match get_relative_error E (np_ones [snd (sp_shape A)]) x with
        | inr f =>
            (Returns (measured E A name type library (clock w) (PyFloat f) 0),
             world_after w 3 [EvSolve library (sp_format A)] [])
        | inl e =>
            (Raises e, world_after w 3 [EvSolve library (sp_format A)] [])
        end
    | inl e =>
        if handled library e
        then (Returns (measured E A name type library (clock w) (PyInt (-1)) 1),
              world_after w 3 [EvSolve library (sp_format A)]
                ["Got MemoryError for UMFPACK!"])
        else (Raises e, world_after w 2 [EvSolve library (sp_format A)] [])
    end.
Proof.
  intros [-> | [-> | ->]] Himp; unfold solve_with_profiling, backend, handled; simpl.
  - unfold bind, time_time, pypardiso_spsolve, tick, log_event, bind, ret, lift, raise.
    rewrite (Himp eq_refl). simpl.
    destruct (pardiso_spsolve E (S (clock w)) A b) as [e|x]; simpl.
    + unfold world_after. simpl. now rewrite app_nil_r.
    + destruct (get_relative_error E _ x); simpl; unfold world_after; simpl;
        now rewrite app_nil_r.
  - unfold bind, time_time, scipy_spsolve, tick, log_event, bind, ret, lift, raise.
    simpl.
    destruct (superlu_spsolve E (S (clock w)) A b) as [e|x]; simpl.
    + unfold world_after. simpl. now rewrite app_nil_r.
    + destruct (get_relative_error E _ x); simpl; unfold world_after; simpl;
        now rewrite app_nil_r.
  - unfold bind, time_time, try_umfpack, scipy_spsolve, tick, log_event, print,
      bind, ret, lift, raise.
    simpl.
    destruct (umfpack_spsolve E (S (clock w)) A b) as [e|x]; simpl.
    + destruct e; simpl; unfold world_after; simpl; now rewrite ?app_nil_r.
    + destruct (get_relative_error E _ x); simpl; unfold world_after; simpl;
        now rewrite app_nil_r.
Qed.

(** ** One iteration of [main] *)

Lemma required_layout_loaded E library m :
  sp_format (loaded E library m) = required_layout library.
Proof.
  unfold loaded, required_layout. now destruct (String.eqb library "mkl").
Qed.

Lemma load_step_valid (E : Env) library path text m w :
  valid_library library ->
  files w !! path = Some (File text) -> mm_parse E text = inr m ->
  load_step E library path w
  = (Returns (Some (loaded E library m)), world_after w 0 [EvRead path] []).
Proof.
  intros [-> | [-> | ->]] Hf Hm; unfold load_step, loaded; simpl;
    unfold load_matrix; simpl;
    unfold bind, mmread, bind, log_event, get_files; simpl;
    rewrite Hf; unfold lift; rewrite Hm; unfold ret, world_after; simpl;
    now rewrite app_nil_r.
Qed.

Lemma load_step_invalid (E : Env) library path w :
  ~ valid_library library ->
  load_step E library path w = (Returns None, w).
Proof.
  intros Hv. unfold load_step, valid_library in *.
  destruct (String.eqb_spec library "mkl"); [tauto|].
  destruct (String.eqb_spec library "umfpack"); [tauto|].
  destruct (String.eqb_spec library "superlu"); [tauto|].
  reflexivity.
Qed.

Lemma main_iteration_valid (E : Env) matrices type library i index path rs
    text m w :
  valid_library library ->
  files w !! path = Some (File text) -> mm_parse E text = inr m ->
  exists line,
    main_iteration E matrices type library i (index, path) rs w
    = bind (solve_with_profiling E (loaded E library m)
              (rhs (loaded E library m)) (py_last (py_split "/" path))
              type library)
        (fun result =>
           print "GC collection finished, next run..." ;;;
           ret (rs ++ [result])%list)
        (world_after w 0 [EvRead path] [line]).
Proof.
  intros Hv Hf Hm. eexists. unfold main_iteration.
  rewrite (bind_returns _ _ _ _ _ (load_step_valid E library path text m w Hv Hf Hm)).
  unfold read_local.
  unfold bind at 1. unfold ret at 1.
  unfold bind at 1. unfold print at 1.
  unfold bind at 1. rewrite create_b_returns. unfold lift at 1, ret at 1.
  unfold world_after. simpl. rewrite !app_nil_r. reflexivity.
Qed.

Lemma main_iteration_completes (E : Env) matrices type library i index path rs
    text m w :
  valid_library library ->
  files w !! path = Some (File text) -> mm_parse E text = inr m ->
  solve_completes E library (S (clock w)) (loaded E library m) ->
  exists r w',
    main_iteration E matrices type library i (index, path) rs w
    = (Returns (rs ++ [r])%list, w')
    /\ files w' = files w
    /\ clock w' = 3 + clock w
    /\ trace w' = (trace w ++ [EvRead path; EvSolve library (required_layout library)])%list
    /\ measures E library type (S (clock w)) path m r.
Proof.
  intros Hv Hf Hm [Himp Hall].
  destruct (main_iteration_valid E matrices type library i index path rs
              text m w Hv Hf Hm) as [line ->].
  unfold bind at 1. rewrite solve_with_profiling_valid by assumption.
  specialize (Hall (rhs (loaded E library m)) (create_b_returns _)).
  rewrite required_layout_loaded.
  change (clock (world_after w 0 [EvRead path] [line])) with (clock w).
  unfold measures.
  destruct (backend E library (S (clock w)) _ _) as [e|x] eqn:Hb.
  - destruct Hall as [-> ->]. simpl.
    do 2 eexists. split; [reflexivity|]. simpl.
    rewrite <- !app_assoc. simpl.
    repeat (split; [reflexivity|]).
    eexists. split; [apply create_b_returns|]. right.
    repeat split. exact Hb.
  - destruct Hall as [f Hg]. rewrite Hg. simpl.
    do 2 eexists. split; [reflexivity|]. simpl.
    rewrite <- !app_assoc. simpl.
    repeat (split; [reflexivity|]).
    eexists. split; [apply create_b_returns|]. left.
    exists x, f. repeat split; assumption.
Qed.

(** ** UMFPACK out of memory *)

Lemma solve_with_profiling_umfpack_oom (E : Env) A b name type w :
  umfpack_spsolve E (S (clock w)) A b = inl MemoryError ->
  solve_with_profiling E A b name type "umfpack" w
  = (Returns (measured E A name type "umfpack" (clock w) (PyInt (-1)) 1),
     world_after w 3 [EvSolve "umfpack" (sp_format A)]
       ["Got MemoryError for UMFPACK!"]).
Proof.
  intros Hoom. rewrite solve_with_profiling_valid.
  - unfold backend. simpl. now rewrite Hoom.
  - right. now right.
  - intros H. inversion H.
Qed.

(** C1. When UMFPACK's solve raises [MemoryError], [solve_with_profiling]
    returns a result instead of raising, with a relative error of [-1] and
    the [umfpack_error] flag at 1; and in [main] the iteration over that
    matrix appends this result and the loop goes on with the matrices that
    are left. *)
Theorem umfpack_memory_error_is_recorded :
  (forall (E : Env) A b name type w,
     umfpack_spsolve E (S (clock w)) A b = inl MemoryError ->
     exists r w',
       solve_with_profiling E A b name type "umfpack" w = (Returns r, w')
       /\ relative_error r = PyInt (-1)
       /\ umfpack_error r = 1%Z)
  /\
  (forall (E : Env) matrices type i index path rest rs text m w,
     files w !! path = Some (File text) ->
     mm_parse E text = inr m ->
     umfpack_spsolve E (S (clock w)) (tocsc E m) (rhs (tocsc E m))
       = inl MemoryError ->
     exists r w',
       relative_error r = PyInt (-1)
       /\ umfpack_error r = 1%Z
       /\ for_each ((index, path) :: rest)
            (main_iteration E matrices type "umfpack" i) rs w
          = for_each rest
              (main_iteration E matrices type "umfpack" i) (rs ++ [r])%list w').
Proof.
  split.
  - intros E A b name type w Hoom. do 2 eexists.
    split; [now apply solve_with_profiling_umfpack_oom|]. split; reflexivity.
  - intros E matrices type i index path rest rs text m w Hf Hm Hoom.
    assert (valid_library "umfpack") as Hv by (right; now right).
    destruct (main_iteration_valid E matrices type "umfpack" i index path rs
                text m w Hv Hf Hm) as [line Hit].
    unfold bind at 1 in Hit.
    change (loaded E "umfpack" m) with (tocsc E m) in Hit.
    rewrite solve_with_profiling_umfpack_oom in Hit by exact Hoom.
    do 2 eexists. split; [|split]; cycle 2.
    + apply for_each_cons_returns. rewrite Hit. reflexivity.
    + reflexivity.
    + reflexivity.
Qed.

Lemma umfpack_memory_error_is_recorded_witness :
  (exists r w',
     solve_with_profiling Demo.oom_env Demo.diag2 (rhs Demo.diag2)
       "a.mtx" "def_pos" "umfpack" (Demo.world Demo.disk) = (Returns r, w')
     /\ relative_error r = PyInt (-1)
     /\ umfpack_error r = 1%Z)
  /\
  (exists r w',
     relative_error r = PyInt (-1)
     /\ umfpack_error r = 1%Z
     /\ for_each [(0, "./data/a.mtx"); (1, "./data/z.mtx")]
          (main_iteration Demo.oom_env ["./data/a.mtx"; "./data/z.mtx"]
             "def_pos" "umfpack" 0) [] (Demo.world Demo.disk)
        = for_each [(1, "./data/z.mtx")]
            (main_iteration Demo.oom_env ["./data/a.mtx"; "./data/z.mtx"]
               "def_pos" "umfpack" 0) ([] ++ [r])%list w').
Proof.
  split.
  - apply (proj1 umfpack_memory_error_is_recorded Demo.oom_env). reflexivity.
  - apply (proj2 umfpack_memory_error_is_recorded Demo.oom_env
             ["./data/a.mtx"; "./data/z.mtx"] "def_pos" 0 0 "./data/a.mtx"
             [(1, "./data/z.mtx")] [] "diag2" Demo.diag2 (Demo.world Demo.disk));
      reflexivity.
Defined.

(** ** Signs of binary64 results *)

Lemma binary_round_aux_not_negative mx ex lx :
  F64.not_negative (binary_round_aux F64.prec F64.emax false mx ex lx).
Proof.
  unfold binary_round_aux.
  destruct (shr_fexp F64.prec F64.emax mx ex lx) as [mrs' e'].
  destruct (shr_fexp F64.prec F64.emax _ e' loc_Exact) as [mrs'' e''].
  destruct (shr_m mrs''); simpl; [reflexivity| |exact I].
  destruct (e'' <=? F64.emax - F64.prec)%Z; reflexivity.
Qed.

Lemma binary_round_not_negative mx ex :
  F64.not_negative (binary_round F64.prec F64.emax false mx ex).
Proof.
  unfold binary_round.
  destruct (shl_align mx ex _) as [mz ez].
  apply binary_round_aux_not_negative.
Qed.

Lemma square_not_negative v : F64.not_negative (F64.mul v v).
Proof.
  destruct v as [s|s| |s m e]; simpl; try (now destruct s); [exact I|].
  unfold F64.mul, SFmul. rewrite xorb_nilpotent.
  apply binary_round_aux_not_negative.
Qed.

Lemma add_not_negative a b :
  F64.not_negative a -> F64.not_negative b -> F64.not_negative (F64.add a b).
Proof.
  destruct a as [sa|sa| |sa ma ea], b as [sb|sb| |sb mb eb]; simpl;
    intros Ha Hb; subst; try reflexivity; try exact I.
  unfold F64.add, SFadd, cond_Zopp, binary_normalize. simpl Z.add.
  apply binary_round_not_negative.
Qed.

Lemma sqrt_not_negative a : F64.not_negative a -> F64.not_negative (F64.sqrt a).
Proof.
  destruct a as [s|s| |s m e]; simpl; intros Ha; subst; try reflexivity;
    try exact I.
  unfold F64.sqrt, SFsqrt.
  destruct (SFsqrt_core_binary F64.prec F64.emax (Z.pos m) e) as [[mz ez] lz].
  apply binary_round_aux_not_negative.
Qed.

Lemma div_not_negative a b :
  F64.not_negative a -> F64.not_negative b -> F64.not_negative (F64.div a b).
Proof.
  destruct a as [sa|sa| |sa ma ea], b as [sb|sb| |sb mb eb]; simpl;
    intros Ha Hb; subst; try reflexivity; try exact I.
  unfold F64.div, SFdiv.
  destruct (SFdiv_core_binary F64.prec F64.emax (Z.pos ma) ea (Z.pos mb) eb)
    as [[mz ez] lz].
  apply binary_round_aux_not_negative.
Qed.

Lemma sum_not_negative l : forall acc,
  Forall F64.not_negative l -> F64.not_negative acc ->
  F64.not_negative (fold_left F64.add l acc).
Proof.
  induction l as [|v l IH]; intros acc Hl Hacc; simpl; [assumption|].
  inversion Hl; subst. apply IH; [assumption|]. now apply add_not_negative.
Qed.

Lemma squares_not_negative v : Forall F64.not_negative (zip_with F64.mul v v).
Proof.
  induction v as [|x v IH]; simpl; constructor;
    [apply square_not_negative | assumption].
Qed.

Lemma vector_norm2_not_negative a f :
  vector_norm2 a = inr f -> F64.not_negative f.
Proof.
  unfold vector_norm2. destruct (nd_shape a) as [|n [|k rest]]; try discriminate.
  intros [= <-]. apply sqrt_not_negative, sum_not_negative;
    [apply squares_not_negative | reflexivity].
Qed.

(** A value that is not negative is not the sentinel. *)
Lemma not_negative_is_not_minus_one f :
  F64.not_negative f -> pynum_eq (PyFloat f) (PyInt (-1)) = false.
Proof.
  destruct f as [s|s| |s m e]; intros Hf; simpl in Hf; subst;
    try reflexivity.
  unfold pynum_eq, float_eq_Z, cond_Zopp.
  destruct (0 <=? e)%Z eqn:He.
  - apply Z.eqb_neq. apply Z.leb_le in He.
    pose proof (Z.pow_pos_nonneg 2 e). lia.
  - apply Z.eqb_neq. apply Z.leb_gt in He.
    pose proof (Z.pow_pos_nonneg 2 (- e)). lia.
Qed.

Lemma relative_error_not_negative (E : Env) xe x f :
  norm_not_negative E ->
  get_relative_error E xe x = inr f -> F64.not_negative f.
Proof.
  intros Hn. unfold get_relative_error.
  destruct (np_subtract E xe x) as [|d]; [discriminate|].
  destruct (np_linalg_norm2 E d) as [|num] eqn:Hnum; [discriminate|].
  destruct (np_linalg_norm2 E xe) as [|den] eqn:Hden; [discriminate|].
  intros [= <-]. apply div_not_negative; eapply Hn; eassumption.
Qed.

(** ** The sentinel and the failure flag *)

Lemma solve_with_profiling_invalid (E : Env) A b name type library w :
  ~ valid_library library ->
  solve_with_profiling E A b name type library w
  = (Raises wrong_library_message_error, w).
Proof.
  intros Hv. unfold solve_with_profiling, valid_library in *.
  destruct (String.eqb_spec library "mkl"); [tauto|].
  destruct (String.eqb_spec library "superlu"); [tauto|].
  destruct (String.eqb_spec library "umfpack"); [tauto|].
  reflexivity.
Qed.

Lemma solve_with_profiling_no_pypardiso (E : Env) A b name type w :
  pypardiso_imported E = false ->
  solve_with_profiling E A b name type "mkl" w
  = (Raises (NameError "pypardiso"), world_after w 1 [] []).
Proof.
  intros Himp. unfold solve_with_profiling. simpl.
  unfold bind, time_time, pypardiso_spsolve, tick, bind, ret, raise.
  rewrite Himp. unfold world_after. simpl. now rewrite !app_nil_r.
Qed.

Lemma valid_library_dec library : {valid_library library} + {~ valid_library library}.
Proof.
  unfold valid_library.
  destruct (string_dec library "mkl"); [left; tauto|].
  destruct (string_dec library "superlu"); [left; tauto|].
  destruct (string_dec library "umfpack"); [left; tauto|].
  right. tauto.
Qed.

Lemma handled_inv library e :
  handled library e = true -> library = "umfpack" /\ e = MemoryError.
Proof.
  unfold handled. intros H. apply andb_prop in H as [Hl He].
  apply String.eqb_eq in Hl. destruct e; try discriminate. now split.
Qed.

(** What a returned result says about the call. *)
Lemma solve_with_profiling_returns (E : Env) A b name type library w r w' :
  solve_with_profiling E A b name type library w = (Returns r, w') ->
  (exists x f,
      backend E library (S (clock w)) A b = inr x
      /\ get_relative_error E (np_ones [snd (sp_shape A)]) x = inr f
      /\ r = measured E A name type library (clock w) (PyFloat f) 0)
  \/ (library = "umfpack"
      /\ umfpack_spsolve E (S (clock w)) A b = inl MemoryError
      /\ r = measured E A name type library (clock w) (PyInt (-1)) 1).
Proof.
  intros Hret.
  destruct (valid_library_dec library) as [Hv|Hv];
    [|rewrite solve_with_profiling_invalid in Hret by assumption; discriminate].
  destruct (pypardiso_imported E) eqn:Himp.
  - rewrite solve_with_profiling_valid in Hret by auto.
    destruct (backend E library (S (clock w)) A b) as [e|x] eqn:Hb.
    + destruct (handled library e) eqn:Hh; [|discriminate].
      apply handled_inv in Hh as [-> ->]. right.
      injection Hret as <- _. repeat split. exact Hb.
    + destruct (get_relative_error E _ x) as [e|f] eqn:Hg; [discriminate|].
      left. exists x, f. injection Hret as <- _. now repeat split.
  - destruct (string_dec library "mkl") as [->|Hne].
    + rewrite solve_with_profiling_no_pypardiso in Hret by assumption.
      discriminate.
    + rewrite solve_with_profiling_valid in Hret by (auto || congruence).
      destruct (backend E library (S (clock w)) A b) as [e|x] eqn:Hb.
      * destruct (handled library e) eqn:Hh; [|discriminate].
        apply handled_inv in Hh as [-> ->]. right.
        injection Hret as <- _. repeat split. exact Hb.
      * destruct (get_relative_error E _ x) as [e|f] eqn:Hg; [discriminate|].
        left. exists x, f. injection Hret as <- _. now repeat split.
Qed.

Example singular_system_gives_nan :
  solve_with_profiling Demo.singular_env Demo.zero1 (rhs Demo.zero1)
    "z.mtx" "non_def_pos" "superlu" (Demo.world Demo.disk)
  = (Returns (measured Demo.singular_env Demo.zero1 "z.mtx" "non_def_pos"
                "superlu" 0 (PyFloat F64.nan) 0),
     world_after (Demo.world Demo.disk) 3 [EvSolve "superlu" COO] []).
Proof. vm_compute. reflexivity. Qed.

Example exact_answer_gives_zero :
  solve_with_profiling Demo.env Demo.diag2 (rhs Demo.diag2)
    "a.mtx" "def_pos" "umfpack" (Demo.world Demo.disk)
  = (Returns (measured Demo.env Demo.diag2 "a.mtx" "def_pos"
                "umfpack" 0 (PyFloat F64.zero) 0),
     world_after (Demo.world Demo.disk) 3 [EvSolve "umfpack" COO] []).
Proof. vm_compute. reflexivity. Qed.

(** C8, as amended. In every result [solve_with_profiling] returns, the
    relative error equals the sentinel [-1] exactly when the [umfpack_error]
    flag is 1, and the flag is 0 or 1. With the flag at 0 the relative error
    is the float [norm(xe - x) / norm(xe)] computed from the backend's
    answer [x]; that float is never negative (it is NaN or its sign bit is
    clear), so it is never the sentinel. With the flag at 1 the backend is
    UMFPACK and its solve raised [MemoryError]. numpy's norm is assumed
    never to be negative. *)
Theorem sentinel_iff_failure_flag
    (E : Env) A b name type library w (r : RunResult) w' :
  norm_not_negative E ->
  solve_with_profiling E A b name type library w = (Returns r, w') ->
  (pynum_eq (relative_error r) (PyInt (-1)) = true <-> umfpack_error r = 1%Z)
  /\ (umfpack_error r = 0%Z \/ umfpack_error r = 1%Z)
  /\ (umfpack_error r = 0%Z ->
      exists x f,
        backend E library (S (clock w)) A b = inr x
        /\ get_relative_error E (np_ones [snd (sp_shape A)]) x = inr f
        /\ relative_error r = PyFloat f
        /\ F64.not_negative f)
  /\ (umfpack_error r = 1%Z ->
      relative_error r = PyInt (-1)
      /\ library = "umfpack"
      /\ umfpack_spsolve E (S (clock w)) A b = inl MemoryError).
Proof.
  intros Hn Hret.
  destruct (solve_with_profiling_returns _ _ _ _ _ _ _ _ _ Hret)
    as [(x & f & Hb & Hg & ->) | (-> & Hoom & ->)]; simpl.
  - pose proof (relative_error_not_negative E _ _ _ Hn Hg) as Hf.
    pose proof (not_negative_is_not_minus_one f Hf) as Hne. simpl in Hne.
    split; [split; [congruence | discriminate]|].
    split; [now left|]. split; [|discriminate].
    intros _. exists x, f. now repeat split.
  - split; [split; reflexivity|]. split; [now right|].
    split; [discriminate|]. intros _. now repeat split.
Qed.

Lemma sentinel_iff_failure_flag_witness :
  let r := measured Demo.env Demo.diag2 "a.mtx" "def_pos" "umfpack" 0
             (PyFloat F64.zero) 0 in
  (pynum_eq (relative_error r) (PyInt (-1)) = true <-> umfpack_error r = 1%Z)
  /\ (umfpack_error r = 0%Z \/ umfpack_error r = 1%Z)
  /\ (umfpack_error r = 0%Z ->
      exists x f,
        backend Demo.env "umfpack" 1 Demo.diag2 (rhs Demo.diag2) = inr x
        /\ get_relative_error Demo.env (np_ones [2]) x = inr f
        /\ relative_error r = PyFloat f
        /\ F64.not_negative f)
  /\ (umfpack_error r = 1%Z ->
      relative_error r = PyInt (-1)
      /\ "umfpack" = "umfpack"
      /\ umfpack_spsolve Demo.env 1 Demo.diag2 (rhs Demo.diag2)
         = inl MemoryError).
Proof.
  exact (sentinel_iff_failure_flag Demo.env Demo.diag2 (rhs Demo.diag2)
           "a.mtx" "def_pos" "umfpack" (Demo.world Demo.disk) _ _
           (fun a f => vector_norm2_not_negative a f)
           exact_answer_gives_zero).
Defined.

(** C8, as stated, fails: with the flag at 0 the relative error need not be
    nonnegative. SuperLU answers a singular system with NaN, and the ratio
    of norms is then NaN, which is not [>= 0]. *)
Lemma relative_error_can_be_nan :
  ~ (forall (E : Env) A b name type library w (r : RunResult) w',
       norm_not_negative E ->
       solve_with_profiling E A b name type library w = (Returns r, w') ->
       umfpack_error r = 0%Z ->
       exists f, relative_error r = PyFloat f /\ F64.ge_zero f = true).
Proof.
  intros H.
  destruct (H Demo.singular_env _ _ _ _ _ _ _ _
              (fun a f => vector_norm2_not_negative a f)
              singular_system_gives_nan eq_refl) as (f & Hf & Hge).
  injection Hf as <-. discriminate.
Qed.

(** ** [log_results] on results *)

Lemma string_app_nil_r (s : string) : s ++ "" = s.
Proof.
  induction s as [|c s IH]; [reflexivity|].
  change (String c (s ++ "") = String c s). now f_equal.
Qed.

Lemma string_app_assoc (a b c : string) : (a ++ b) ++ c = a ++ (b ++ c).
Proof.
  induction a as [|x a IH]; [reflexivity|].
  change (String x ((a ++ b) ++ c) = String x (a ++ (b ++ c))). now f_equal.
Qed.

Lemma is_file_run path w :
  is_file path w
  = (Returns (match files w !! path with Some (File _) => true | _ => false end),
     world_after w 0 [EvStat path] []).
Proof.
  unfold is_file, bind, log_event, get_files, ret, world_after. simpl.
  now rewrite app_nil_r.
Qed.

Lemma open_w_run path w :
  files w !! path <> Some Dir ->
  open_w path w
  = (Returns tt, write_file (world_after w 0 [EvCreate path] []) path (File "")).
Proof.
  intros Hf. unfold open_w, bind, log_event, get_files, put_file,
    write_file, world_after. simpl.
  rewrite app_nil_r.
  destruct (files w !! path) as [[t|]|]; [reflexivity | congruence | reflexivity].
Qed.

Lemma open_a_run path text w :
  files w !! path = Some (File text) ->
  open_a path w = (Returns tt, world_after w 0 [EvAppend path] []).
Proof.
  intros Hf. unfold open_a, bind, log_event, get_files, ret, world_after. simpl.
  now rewrite Hf, app_nil_r.
Qed.

Lemma file_write_run (E : Env) path s text w :
  files w !! path = Some (File text) ->
  file_write E path s w
  = (Returns tt, write_file w path (File (text ++ translate_newlines E s))).
Proof.
  intros Hf. unfold file_write, bind, get_files. now rewrite Hf.
Qed.

Lemma print_run line w : print line w = (Returns tt, world_after w 0 [] [line]).
Proof. unfold print, world_after. simpl. now rewrite app_nil_r. Qed.

Lemma row_text_written (E : Env) (r : RunResult) :
  translate_newlines E (csv_line (map (dict_get E (csv_row r)) csv_fields))
  = row_text E r.
Proof. reflexivity. Qed.

Lemma rows_are_appended (E : Env) path rs : forall w t,
  files w !! path = Some (File t) ->
  exists w',
    for_each (map csv_row rs)
      (fun row _ => dictwriter_writerow E path row) tt w = (Returns tt, w')
    /\ files w' = <[path := File (t ++ rows_text E rs)]> (files w)
    /\ trace w' = trace w.
Proof.
  induction rs as [|r rs IH]; intros w t Hf.
  - exists w. split; [reflexivity|]. split; [|reflexivity].
    cbn [rows_text]. now rewrite string_app_nil_r, insert_id.
  - cbn [map for_each rows_text].
    erewrite bind_returns
      by (unfold dictwriter_writerow; eapply file_write_run; exact Hf).
    rewrite row_text_written.
    destruct (IH (write_file w path (File (t ++ row_text E r)))
                (t ++ row_text E r)) as (w' & Hrun & Hfs & Htr);
      [apply lookup_insert_eq|].
    exists w'. split; [exact Hrun|]. rewrite Hfs, Htr. simpl.
    now rewrite insert_insert_eq, string_app_assoc.
Qed.

Lemma log_results_fresh (E : Env) rs filename w :
  rs <> [] ->
  files w !! result_path filename = None ->
  exists w',
    log_results E rs filename w = (Returns tt, w')
    /\ files w'
       = <[result_path filename := File (header_text E ++ rows_text E rs)]>
           (files w)
    /\ trace w'
       = (trace w ++ [EvStat (result_path filename);
                      EvCreate (result_path filename);
                      EvAppend (result_path filename)])%list.
Proof.
  intros Hrs Hf. destruct rs as [|r0 rs0]; [congruence|].
  unfold log_results. cbv iota. set (rs := r0 :: rs0).
  set (path := result_path filename) in *.
  erewrite bind_returns by apply is_file_run.
  rewrite Hf. cbn [negb].
  set (w1 := world_after w 0 [EvStat path] []).
  set (w2 := write_file (world_after w1 0 [EvCreate path] []) path (File "")).
  set (w3 := write_file w2 path (File (header_text E))).
  assert (bind (open_w path)
            (fun _ => file_write E path (py_join "," csv_fields ++ LF)) w1
          = (Returns tt, w3)) as Hhead.
  { erewrite bind_returns by (apply open_w_run; simpl; rewrite Hf; discriminate).
    fold w2. erewrite file_write_run by apply lookup_insert_eq. reflexivity. }
  erewrite bind_returns by exact Hhead.
  erewrite bind_returns by (eapply open_a_run; apply lookup_insert_eq).
  erewrite bind_returns by apply print_run.
  match goal with
  | |- context [bind _ _ ?w4] =>
      destruct (rows_are_appended E path rs w4 (header_text E))
        as (w' & Hrun & Hfs & Htr); [apply lookup_insert_eq|]
  end.
  erewrite bind_returns by exact Hrun.
  rewrite print_run.
  eexists. split; [reflexivity|]. simpl.
  rewrite Hfs, Htr. simpl. rewrite !insert_insert_eq, !app_nil_r, <- !app_assoc.
  split; reflexivity.
Qed.

Lemma log_results_existing (E : Env) rs filename text w :
  rs <> [] ->
  files w !! result_path filename = Some (File text) ->
  exists w',
    log_results E rs filename w = (Returns tt, w')
    /\ files w'
       = <[result_path filename := File (text ++ rows_text E rs)]> (files w)
    /\ trace w'
       = (trace w ++ [EvStat (result_path filename);
                      EvAppend (result_path filename)])%list.
Proof.
  intros Hrs Hf. destruct rs as [|r0 rs0]; [congruence|].
  unfold log_results. cbv iota. set (rs := r0 :: rs0).
  set (path := result_path filename) in *.
  erewrite bind_returns by apply is_file_run.
  rewrite Hf. cbn [negb].
  erewrite bind_returns by reflexivity.
  erewrite bind_returns by (eapply open_a_run; exact Hf).
  erewrite bind_returns by apply print_run.
  match goal with
  | |- context [bind _ _ ?w4] =>
      destruct (rows_are_appended E path rs w4 text)
        as (w' & Hrun & Hfs & Htr); [exact Hf|]
  end.
  erewrite bind_returns by exact Hrun.
  rewrite print_run.
  eexists. split; [reflexivity|]. simpl.
  rewrite Hfs, Htr. simpl. rewrite !app_nil_r, <- !app_assoc.
  split; reflexivity.
Qed.

(** C7, as amended. Two calls of [log_results] on a destination that does
    not exist yet, at least one of them with results, leave a file that
    holds the header line once, then the rows of the first call, then the
    rows of the second. A call with results on a destination that is
    already a file appends its rows to the text that is there and neither
    creates nor empties the file. *)
Theorem header_is_written_once :
  (forall (E : Env) rs1 rs2 filename w,
     files w !! result_path filename = None ->
     rs1 <> [] \/ rs2 <> [] ->
     exists w',
       (log_results E rs1 filename ;;; log_results E rs2 filename) w
       = (Returns tt, w')
       /\ files w'
          = <[result_path filename :=
                File (header_text E ++ rows_text E rs1 ++ rows_text E rs2)]>
              (files w))
  /\
  (forall (E : Env) rs filename text w,
     files w !! result_path filename = Some (File text) ->
     rs <> [] ->
     exists w',
       log_results E rs filename w = (Returns tt, w')
       /\ files w'
          = <[result_path filename := File (text ++ rows_text E rs)]> (files w)
       /\ trace w'
          = (trace w ++ [EvStat (result_path filename);
                         EvAppend (result_path filename)])%list).
Proof.
  split.
  - intros E rs1 rs2 filename w Hf Hne.
    destruct rs1 as [|r1 rs1'].
    + destruct Hne as [Hne|Hne]; [congruence|].
      destruct (log_results_fresh E rs2 filename w Hne Hf)
        as (w' & Hrun & Hfs & _).
      exists w'. split; [|exact Hfs].
      erewrite bind_returns by reflexivity. exact Hrun.
    + destruct (log_results_fresh E (r1 :: rs1') filename w) as (w1 & Hrun1 & Hfs1 & _);
        [discriminate | exact Hf |].
      erewrite bind_returns by exact Hrun1.
      destruct rs2 as [|r2 rs2'].
      * exists w1. split; [reflexivity|]. rewrite Hfs1.
        cbn [rows_text]. now rewrite string_app_nil_r.
      * destruct (log_results_existing E (r2 :: rs2') filename
                    (header_text E ++ rows_text E (r1 :: rs1')) w1)
          as (w2 & Hrun2 & Hfs2 & _);
          [discriminate | rewrite Hfs1; apply lookup_insert_eq |].
        exists w2. split; [exact Hrun2|].
        rewrite Hfs2, Hfs1, insert_insert_eq, string_app_assoc. reflexivity.
  - intros E rs filename text w Hf Hne.
    now apply log_results_existing.
Qed.

Lemma header_is_written_once_witness :
  (exists w',
     (log_results Demo.env [Demo.result0] "python-result-log" ;;;
      log_results Demo.env [Demo.result0] "python-result-log")
       (Demo.world Demo.disk)
     = (Returns tt, w')
     /\ files w'
        = <[result_path "python-result-log" :=
              File (header_text Demo.env ++ rows_text Demo.env [Demo.result0]
                      ++ rows_text Demo.env [Demo.result0])]>
            (files (Demo.world Demo.disk)))
  /\
  (exists w',
     log_results Demo.env [Demo.result0] "a"
       (Demo.world (<[result_path "a" := File "old"]> Demo.disk))
     = (Returns tt, w')
     /\ files w'
        = <[result_path "a" := File ("old" ++ rows_text Demo.env [Demo.result0])]>
            (files (Demo.world (<[result_path "a" := File "old"]> Demo.disk)))
     /\ trace w'
        = (trace (Demo.world (<[result_path "a" := File "old"]> Demo.disk))
             ++ [EvStat (result_path "a"); EvAppend (result_path "a")])%list).
Proof.
  split.
  - apply (proj1 header_is_written_once Demo.env [Demo.result0] [Demo.result0]
             "python-result-log" (Demo.world Demo.disk)).
    + reflexivity.
    + left. discriminate.
  - apply (proj2 header_is_written_once Demo.env [Demo.result0] "a" "old"
             (Demo.world (<[result_path "a" := File "old"]> Demo.disk))).
    + reflexivity.
    + discriminate.
Defined.

Example two_logs_give_one_header :
  files (snd ((log_results Demo.env [Demo.result0] "log" ;;;
               log_results Demo.env [Demo.result0] "log") (Demo.world ∅)))
    !! "./windows-log.csv"
  = Some (File
      ("matrix,dimensions,type,start_time,end_time,rel_error,system,library,umfpack_error"
         ++ LF ++ "a.mtx,2x2,def_pos,0.0,0.0,0.0,windows,umfpack,0" ++ CR ++ LF
         ++ "a.mtx,2x2,def_pos,0.0,0.0,0.0,windows,umfpack,0" ++ CR ++ LF)).
Proof. vm_compute. reflexivity. Qed.

(** C7, as stated, fails: when neither call has results, no file is
    produced at all, so there is no header line. *)
Lemma two_empty_logs_leave_no_file :
  ~ (forall (E : Env) rs1 rs2 filename w,
       files w !! result_path filename = None ->
       exists w' text,
         (log_results E rs1 filename ;;; log_results E rs2 filename) w
         = (Returns tt, w')
         /\ files w' !! result_path filename = Some (File text)).
Proof.
  intros H.
  destruct (H Demo.env [] [] "python-result-log" (Demo.world ∅))
    as (w' & text & Hrun & Hf); [apply lookup_empty|].
  injection Hrun as <-. simpl in Hf. rewrite lookup_empty in Hf. discriminate.
Qed.

(** ** The whole run *)

Lemma world_after_print w l1 l2 :
  world_after (world_after w 0 [] l1) 0 [] l2 = world_after w 0 [] (l1 ++ l2)%list.
Proof.
  unfold world_after. simpl. now rewrite !app_nil_r, app_assoc.
Qed.

Lemma print_all_run (lines : list string) : forall w,
  for_each lines (fun m _ => print m) tt w = (Returns tt, world_after w 0 [] lines).
Proof.
  induction lines as [|l lines IH]; intros w.
  - simpl. unfold ret. now rewrite world_after_nil.
  - cbn [for_each]. erewrite bind_returns by apply print_run.
    rewrite IH, world_after_print. reflexivity.
Qed.

Lemma map_snd_enumerate {A} (l : list A) : map snd (enumerate l) = l.
Proof.
  unfold enumerate. generalize 0.
  induction l as [|x l IH]; intros s; simpl; [reflexivity|].
  now rewrite IH.
Qed.

Lemma inner_loop_completes (E : Env) matrices type library i :
  valid_library library ->
  forall (ips : list (nat * string)) rs w,
    pass_ready E (files w) library (clock w) (map snd ips) ->
    exists rs' w',
      for_each ips (main_iteration E matrices type library i) rs w
      = (Returns (rs ++ rs')%list, w')
      /\ files w' = files w
      /\ clock w' = clock w + 3 * length ips
      /\ trace w' = (trace w ++ pass_events library (map snd ips))%list
      /\ map matrix_name rs' = map file_name (map snd ips)
      /\ Forall (right_result type library) rs'
      /\ (forall j p, map snd ips !! j = Some p ->
            exists r,
              rs' !! j = Some r
              /\ measured_from E (files w) library type
                   (clock w + 3 * j + 1) p r).
Proof.
  intros Hv. induction ips as [|[index path] ips IH]; intros rs w Hready.
  - exists [], w. simpl. unfold ret. rewrite !app_nil_r.
    repeat split; try lia; try constructor.
    intros j p Hj. destruct j; discriminate.
  - destruct (Hready 0 path eq_refl) as (text & m & Hf & Hm & Hsolve).
    replace (clock w + 3 * 0 + 1) with (S (clock w)) in Hsolve by lia.
    destruct (main_iteration_completes E matrices type library i index path rs
                text m w Hv Hf Hm Hsolve)
      as (r & w1 & Hrun & Hfs & Hck & Htr & Hmeas).
    destruct (IH (rs ++ [r])%list w1)
      as (rs' & w' & Hrun' & Hfs' & Hck' & Htr' & Hn' & Hall' & Hmeas').
    { intros j p Hj. rewrite Hfs, Hck.
      at_reading (clock w + 3 * S j + 1).
      apply Hready. exact Hj. }
    exists (r :: rs'), w'.
    rewrite (for_each_cons_returns _ _ _ _ _ _ _ Hrun), Hrun'.
    rewrite <- app_assoc. simpl. split; [reflexivity|].
    split; [congruence|]. split; [lia|]. split.
    { rewrite Htr', Htr, <- app_assoc. reflexivity. }
    pose proof Hmeas as (Hname & Hty & Hlib & _).
    split; [now rewrite Hname, Hn'|].
    split; [constructor; [now split | assumption]|].
    intros [|j] p Hj.
    + injection Hj as <-. exists r. split; [reflexivity|].
      at_reading (S (clock w)).
      exists text, m. split; [exact Hf|]. split; [exact Hm | exact Hmeas].
    + destruct (Hmeas' j p Hj) as (r' & Hr' & Hfrom).
      exists r'. split; [exact Hr'|].
      rewrite Hfs, Hck in Hfrom.
      at_reading (3 + clock w + 3 * j + 1).
      exact Hfrom.
Qed.

Lemma outer_loop_completes (E : Env) matrices type library num_runs :
  valid_library library ->
  forall (runs : list nat) rs w,
    run_ready E (files w) library (clock w) matrices (length runs) ->
    exists rs' w',
      for_each runs (main_run E matrices type library num_runs) rs w
      = (Returns (rs ++ rs')%list, w')
      /\ files w' = files w
      /\ clock w' = clock w + 3 * (length runs * length matrices)
      /\ trace w'
         = (trace w ++ concat (repeat (pass_events library matrices) (length runs)))%list
      /\ map matrix_name rs'
         = concat (repeat (map file_name matrices) (length runs))
      /\ Forall (right_result type library) rs'
      /\ (forall a j p, a < length runs -> matrices !! j = Some p ->
            exists r,
              rs' !! (a * length matrices + j) = Some r
              /\ measured_from E (files w) library type
                   (clock w + 3 * (a * length matrices + j) + 1) p r).
Proof.
  intros Hv. induction runs as [|i runs IH]; intros rs w Hready.
  - exists [], w. simpl. unfold ret. rewrite !app_nil_r.
    repeat split; try lia; try constructor.
  - cbn [for_each]. unfold main_run at 1.
    unfold bind at 1. unfold bind at 1. rewrite print_run.
    unfold bind at 1. rewrite print_run.
    destruct (inner_loop_completes E matrices type library i Hv
                (enumerate matrices) rs
                (world_after (world_after w 0 [] [LF ++ "## ------------------------ ##"])
                   0 [] ["Run " ++ pretty (i + 1) ++ "/" ++ pretty num_runs
                           ++ " with all matrices"]))
      as (rs1 & w1 & Hrun1 & Hfs1 & Hck1 & Htr1 & Hn1 & Hall1 & Hmeas1).
    { rewrite map_snd_enumerate. simpl.
      pose proof (Hready 0 ltac:(simpl; lia)) as H0.
      replace (clock w + 3 * (0 * length matrices)) with (clock w) in H0 by lia.
      exact H0. }
    rewrite Hrun1. rewrite map_snd_enumerate in Htr1, Hn1, Hmeas1.
    assert (length (enumerate matrices) = length matrices) as Hlen.
    { rewrite <- (map_snd_enumerate matrices) at 2. now rewrite length_map. }
    rewrite Hlen in Hck1. simpl in Hfs1, Hck1, Htr1, Hmeas1.
    assert (length rs1 = length matrices) as Hlen1.
    { rewrite <- (length_map matrix_name rs1), Hn1. now rewrite length_map. }
    destruct (IH (rs ++ rs1)%list w1)
      as (rs2 & w2 & Hrun2 & Hfs2 & Hck2 & Htr2 & Hn2 & Hall2 & Hmeas2).
    { intros a Ha j p Hj. rewrite Hfs1, Hck1.
      at_reading (clock w + 3 * (S a * length matrices) + 3 * j + 1).
      apply Hready; [simpl; lia | exact Hj]. }
    exists (rs1 ++ rs2)%list, w2. rewrite Hrun2, <- app_assoc.
    split; [reflexivity|]. split; [now rewrite Hfs2, Hfs1|].
    split; [rewrite Hck2, Hck1; simpl; lia|]. split.
    { rewrite Htr2, Htr1. simpl. rewrite !app_nil_r, <- app_assoc. reflexivity. }
    split; [rewrite map_app, Hn1, Hn2; reflexivity|].
    split; [now apply Forall_app|].
    intros a j p Ha Hj.
    pose proof (lookup_lt_Some _ _ _ Hj) as Hjlt.
    destruct a as [|a].
    + destruct (Hmeas1 j p Hj) as (r & Hr & Hfrom).
      exists r. split.
      * simpl. rewrite lookup_app_l by lia. exact Hr.
      * at_reading (clock w + 3 * j + 1).
        exact Hfrom.
    + destruct (Hmeas2 a j p ltac:(simpl in Ha; lia) Hj) as (r & Hr & Hfrom).
      exists r. split.
      * rewrite lookup_app_r by (rewrite Hlen1; simpl; lia).
        rewrite Hlen1.
        replace (S a * length matrices + j - length matrices)
          with (a * length matrices + j) by (simpl; lia).
        exact Hr.
      * rewrite Hfs1, Hck1 in Hfrom.
        at_reading (clock w + 3 * length matrices
                    + 3 * (a * length matrices + j) + 1).
        exact Hfrom.
Qed.

Lemma length_concat_repeat {A} (l : list A) n :
  length (concat (repeat l n)) = n * length l.
Proof.
  induction n as [|n IH]; simpl; [reflexivity|].
  now rewrite length_app, IH.
Qed.

Lemma main_completes (E : Env) matrices type library num_runs w :
  valid_library library ->
  run_ready E (files w) library (clock w) matrices (Z.to_nat num_runs) ->
  exists rs w',
    main E matrices type library num_runs w = (Returns rs, w')
    /\ files w' = files w
    /\ clock w' = clock w + 3 * (Z.to_nat num_runs * length matrices)
    /\ trace w'
       = (trace w ++ concat (repeat (pass_events library matrices)
                               (Z.to_nat num_runs)))%list
    /\ map matrix_name rs
       = concat (repeat (map file_name matrices) (Z.to_nat num_runs))
    /\ Forall (right_result type library) rs
    /\ (forall a j p, a < Z.to_nat num_runs -> matrices !! j = Some p ->
          exists r,
            rs !! (a * length matrices + j) = Some r
            /\ measured_from E (files w) library type
                 (clock w + 3 * (a * length matrices + j) + 1) p r).
Proof.
  intros Hv Hready. unfold main.
  erewrite bind_returns by apply print_run.
  erewrite bind_returns by apply print_all_run.
  destruct (outer_loop_completes E matrices type library num_runs Hv
              (seq 0 (Z.to_nat num_runs)) []
              (world_after (world_after w 0 [] ["Discovered these matrices:"])
                 0 [] matrices))
    as (rs & w1 & Hrun & Hfs & Hck & Htr & Hn & Hall & Hmeas).
  { rewrite length_seq. exact Hready. }
  rewrite length_seq in Hck, Htr, Hn, Hmeas.
  erewrite bind_returns by exact Hrun.
  erewrite bind_returns by apply print_run.
  exists rs, (world_after w1 0 [] [LF ++ "Done!"]).
  split; [reflexivity|]. simpl in *. rewrite Htr. simpl.
  rewrite !app_nil_r. repeat split; assumption.
Qed.

(** C5, as amended. For a valid backend, a positive trial count and a list
    of paths, when every path names a file that parses and every solve the
    run performs completes (with an answer, or with UMFPACK's out-of-memory
    error), the run returns one result per trial and path. The number of
    results is the trial count times the number of paths; they come trial
    by trial and, within a trial, in the order of the paths. Every
    iteration reads its file and then calls the chosen backend on the
    matrix in the layout that backend needs (row-compressed for mkl,
    column-compressed for superlu and umfpack) and on the right-hand side
    [create_b] builds from that matrix; the result of trial [i] and path
    number [j] stands at position [i * paths + j] and is the measurement of
    that solve. *)
Theorem main_runs_every_matrix_in_every_trial
    (E : Env) matrices type library (num_runs : Z) w :
  valid_library library ->
  (0 < num_runs)%Z ->
  run_ready E (files w) library (clock w) matrices (Z.to_nat num_runs) ->
  exists rs w',
    main E matrices type library num_runs w = (Returns rs, w')
    /\ Z.of_nat (length rs) = (num_runs * Z.of_nat (length matrices))%Z
    /\ map matrix_name rs
       = concat (repeat (map file_name matrices) (Z.to_nat num_runs))
    /\ trace w'
       = (trace w ++ concat (repeat (pass_events library matrices)
                               (Z.to_nat num_runs)))%list
    /\ (required_layout "mkl" = CSR /\ required_layout "superlu" = CSC
        /\ required_layout "umfpack" = CSC)
    /\ Forall (fun r => matrix_type r = type /\ solver_library r = library) rs
    /\ (forall i j p,
          i < Z.to_nat num_runs -> matrices !! j = Some p ->
          exists r,
            rs !! (i * length matrices + j) = Some r
            /\ measured_from E (files w) library type
                 (clock w + 3 * (i * length matrices + j) + 1) p r).
Proof.
  intros Hv Hpos Hready.
  destruct (main_completes E matrices type library num_runs w Hv Hready)
    as (rs & w' & Hrun & _ & _ & Htr & Hn & Hall & Hmeas).
  exists rs, w'. split; [exact Hrun|]. split.
  - rewrite <- (length_map matrix_name rs), Hn, length_concat_repeat, length_map.
    lia.
  - repeat split; assumption.
Qed.

Lemma lab_solve_completes library k A :
  (fst (sp_shape A) =? snd (sp_shape A))%nat = true ->
  library <> "mkl" ->
  solve_completes Lab.env library k A.
Proof.
  intros Hsq Hlib. split; [reflexivity|]. intros b _.
  assert (backend Lab.env library k A b = Lab.solver k A b) as ->.
  { unfold backend.
    destruct (String.eqb_spec library "mkl") as [Hl|_]; [congruence|].
    now destruct (String.eqb library "superlu"). }
  unfold Lab.solver. rewrite Hsq. cbn [negb].
  destruct (fst (sp_shape A) =? 2)%nat;
    unfold get_relative_error; simpl; unfold vector_subtract; simpl;
    (case_decide; [|congruence]); eexists; reflexivity.
Qed.

Lemma lab_pass_ready library t0 :
  library <> "mkl" ->
  pass_ready Lab.env Demo.disk library t0 ["./data/a.mtx"; "./data/z.mtx"].
Proof.
  intros Hlib [|[|j]] p Hj; try discriminate; injection Hj as <-;
    do 2 eexists; (split; [reflexivity|]); (split; [reflexivity|]);
    apply lab_solve_completes; try assumption;
    unfold loaded; now destruct (String.eqb library "mkl").
Qed.

Example lab_solver_refuses_a_tall_matrix :
  Lab.solver 1 Lab.tall (rhs Lab.tall) = inl (ValueError "matrix must be square")
  /\ ~ solve_completes Lab.env "umfpack" 1 Lab.tall.
Proof.
  split; [reflexivity|]. intros [_ H].
  specialize (H (rhs Lab.tall) (create_b_returns _)).
  destruct H as [_ H]. discriminate.
Qed.

Lemma main_runs_every_matrix_in_every_trial_witness :
  exists rs w',
    main Lab.env ["./data/a.mtx"; "./data/z.mtx"] "def_pos" "umfpack" 2
      (Demo.world Demo.disk) = (Returns rs, w')
    /\ Z.of_nat (length rs) = (2 * Z.of_nat 2)%Z
    /\ map matrix_name rs
       = concat (repeat (map file_name ["./data/a.mtx"; "./data/z.mtx"])
                   (Z.to_nat 2))
    /\ trace w'
       = (trace (Demo.world Demo.disk)
            ++ concat (repeat (pass_events "umfpack"
                                 ["./data/a.mtx"; "./data/z.mtx"]) (Z.to_nat 2)))%list
    /\ (required_layout "mkl" = CSR /\ required_layout "superlu" = CSC
        /\ required_layout "umfpack" = CSC)
    /\ Forall (fun r => matrix_type r = "def_pos" /\ solver_library r = "umfpack") rs
    /\ (forall i j p,
          i < Z.to_nat 2 -> ["./data/a.mtx"; "./data/z.mtx"] !! j = Some p ->
          exists r,
            rs !! (i * length ["./data/a.mtx"; "./data/z.mtx"] + j) = Some r
            /\ measured_from Lab.env (files (Demo.world Demo.disk)) "umfpack"
                 "def_pos"
                 (clock (Demo.world Demo.disk)
                  + 3 * (i * length ["./data/a.mtx"; "./data/z.mtx"] + j) + 1)
                 p r).
Proof.
  apply (main_runs_every_matrix_in_every_trial Lab.env
           ["./data/a.mtx"; "./data/z.mtx"] "def_pos" "umfpack" 2
           (Demo.world Demo.disk)).
  - right. now right.
  - lia.
  - intros i _. apply lab_pass_ready. str_neq.
Defined.

Example two_trials_two_matrices :
  (let '(r, w') := main Lab.env ["./data/a.mtx"; "./data/z.mtx"] "def_pos"
                     "umfpack" 2 (Demo.world Demo.disk) in
   (match r with
    | Returns rs => map (fun r => (matrix_name r, relative_error r)) rs
    | Raises _ => []
    end, trace w'))
  = ([("a.mtx", PyFloat F64.zero); ("z.mtx", PyFloat F64.nan);
      ("a.mtx", PyFloat F64.zero); ("z.mtx", PyFloat F64.nan)],
     [EvRead "./data/a.mtx"; EvSolve "umfpack" CSC;
      EvRead "./data/z.mtx"; EvSolve "umfpack" CSC;
      EvRead "./data/a.mtx"; EvSolve "umfpack" CSC;
      EvRead "./data/z.mtx"; EvSolve "umfpack" CSC]).
Proof. vm_compute. reflexivity. Qed.

Example missing_file_raises :
  fst (main Demo.env ["./data/missing.mtx"] "def_pos" "umfpack" 1
         (Demo.world Demo.disk))
  = Raises (FileNotFoundError "./data/missing.mtx").
Proof. vm_compute. reflexivity. Qed.

(** C5, as stated, fails: a path that names no file makes the first load
    raise, and the run is aborted without any result. *)
Lemma missing_file_aborts_the_run :
  ~ (forall (E : Env) matrices type library (num_runs : Z) w,
       valid_library library ->
       (0 < num_runs)%Z ->
       exists rs w',
         main E matrices type library num_runs w = (Returns rs, w')
         /\ Z.of_nat (length rs) = (num_runs * Z.of_nat (length matrices))%Z).
Proof.
  intros H.
  destruct (H Demo.env ["./data/missing.mtx"] "def_pos" "umfpack" 1%Z
              (Demo.world Demo.disk)) as (rs & w' & Hrun & _).
  - right. now right.
  - lia.
  - apply (f_equal fst) in Hrun. rewrite missing_file_raises in Hrun.
    discriminate.
Qed.

(** ** An unknown library *)

Lemma mmread_run (E : Env) path w :
  mmread E path w
  = (match files w !! path with
     | None => Raises (FileNotFoundError path)
     | Some Dir => Raises (IsADirectoryError path)
     | Some (File text) =>
         match mm_parse E text with
         | inl e => Raises e
         | inr m => Returns m
         end
     end, world_after w 0 [EvRead path] []).
Proof.
  unfold mmread, bind, log_event, get_files, world_after. simpl.
  rewrite app_nil_r.
  destruct (files w !! path) as [[text|]|]; try reflexivity.
  unfold lift. now destruct (mm_parse E text).
Qed.

Lemma mmread_raises_env (E : Env) path w e w' :
  mmread E path w = (Raises e, w') -> environment_error E e.
Proof.
  rewrite mmread_run. unfold environment_error.
  destruct (files w !! path) as [[text|]|].
  - destruct (mm_parse E text) as [e0|m] eqn:Hm; [|discriminate].
    intros [= <- _]. right. right. right. left. now exists text.
  - intros [= <- _]. right. left. now exists path.
  - intros [= <- _]. left. now exists path.
Qed.

Lemma load_step_returns_some (E : Env) library path w a w' :
  valid_library library ->
  load_step E library path w = (Returns a, w') -> exists m, a = Some m.
Proof.
  intros [-> | [-> | ->]]; unfold load_step; simpl; unfold bind at 1;
    destruct (load_matrix E path _ w) as [[m|e] w1]; intros [= <- _];
    now exists m.
Qed.

Lemma load_step_raises_env (E : Env) library path w e w' :
  valid_library library ->
  load_step E library path w = (Raises e, w') -> environment_error E e.
Proof.
  intros [-> | [-> | ->]]; unfold load_step, load_matrix; simpl;
    unfold bind at 1; unfold bind at 1;
    destruct (mmread E path w) as [[m|e0] w1] eqn:Hr; try discriminate;
    intros [= <- _]; eapply mmread_raises_env; exact Hr.
Qed.

Lemma backend_raises_env (E : Env) library k A b e :
  backend E library k A b = inl e -> environment_error E e.
Proof.
  unfold backend, environment_error.
  destruct (String.eqb library "mkl"); [|destruct (String.eqb library "superlu")];
    intros Hb.
  - do 4 right. left. now exists k, A, b.
  - do 5 right. left. now exists k, A, b.
  - do 6 right. left. now exists k, A, b.
Qed.

Lemma get_relative_error_raises_env (E : Env) xe x e :
  get_relative_error E xe x = inl e -> environment_error E e.
Proof.
  unfold get_relative_error, environment_error.
  destruct (np_subtract E xe x) as [e0|d] eqn:Hs.
  - intros [= <-]. do 7 right. left. now exists xe, x.
  - destruct (np_linalg_norm2 E d) as [e0|num] eqn:Hn.
    + intros [= <-]. do 8 right. now exists d.
    + destruct (np_linalg_norm2 E xe) as [e0|den] eqn:Hd; [|discriminate].
      intros [= <-]. do 8 right. now exists xe.
Qed.

Lemma solve_with_profiling_raises_env (E : Env) A b name type library w e w' :
  valid_library library ->
  solve_with_profiling E A b name type library w = (Raises e, w') ->
  environment_error E e.
Proof.
  intros Hv Hraise.
  assert (forall Himp : library = "mkl" -> pypardiso_imported E = true,
             environment_error E e) as Hcase.
  { intros Himp. rewrite solve_with_profiling_valid in Hraise by assumption.
    destruct (backend E library (S (clock w)) A b) as [e0|x] eqn:Hb.
    - destruct (handled library e0); [discriminate|].
      injection Hraise as <- _. eapply backend_raises_env. exact Hb.
    - destruct (get_relative_error E _ x) as [e0|f] eqn:Hg; [|discriminate].
      injection Hraise as <- _. eapply get_relative_error_raises_env. exact Hg. }
  destruct (pypardiso_imported E) eqn:Himp; [now apply Hcase|].
  destruct (string_dec library "mkl") as [->|Hne]; [|apply Hcase; congruence].
  rewrite solve_with_profiling_no_pypardiso in Hraise by assumption.
  injection Hraise as <- _. right. right. now left.
Qed.

Lemma main_iteration_raises_env (E : Env) matrices type library i ip rs w e w' :
  valid_library library ->
  main_iteration E matrices type library i ip rs w = (Raises e, w') ->
  environment_error E e.
Proof.
  intros Hv. destruct ip as [index path]. unfold main_iteration.
  unfold bind at 1.
  destruct (load_step E library path w) as [[a|e0] w1] eqn:Hl.
  - destruct (load_step_returns_some _ _ _ _ _ _ Hv Hl) as [m ->].
    unfold read_local. erewrite bind_returns by reflexivity.
    erewrite bind_returns by apply print_run.
    rewrite create_b_returns. erewrite bind_returns by reflexivity.
    unfold bind at 1.
    destruct (solve_with_profiling E m _ _ type library _) as [[r|e1] w2] eqn:Hs.
    + erewrite bind_returns by apply print_run. discriminate.
    + intros [= <- _]. eapply solve_with_profiling_raises_env; eassumption.
  - intros [= <- _]. eapply load_step_raises_env; eassumption.
Qed.

Lemma for_each_raises {A S} (P : exn -> Prop) (body : A -> S -> M S) :
  (forall x s w e w', body x s w = (Raises e, w') -> P e) ->
  forall l s w e w', for_each l body s w = (Raises e, w') -> P e.
Proof.
  intros Hbody. induction l as [|x l IH]; intros s w e w'; simpl.
  - discriminate.
  - unfold bind. destruct (body x s w) as [[s1|e1] w1] eqn:Hb.
    + apply IH.
    + intros [= <- _]. eapply Hbody. exact Hb.
Qed.

Lemma main_raises_env (E : Env) matrices type library num_runs w e w' :
  valid_library library ->
  main E matrices type library num_runs w = (Raises e, w') ->
  environment_error E e.
Proof.
  intros Hv. unfold main.
  erewrite bind_returns by apply print_run.
  erewrite bind_returns by apply print_all_run.
  unfold bind at 1.
  destruct (for_each (seq 0 (Z.to_nat num_runs)) _ [] _) as [[rs|e0] w1] eqn:Hloop.
  - erewrite bind_returns by apply print_run. discriminate.
  - intros [= <- _]. revert Hloop. apply for_each_raises.
    intros i rs0 w0 e1 w2. unfold main_run.
    erewrite bind_returns by apply print_run.
    erewrite bind_returns by apply print_run.
    apply for_each_raises. intros ip rs1 w3 e2 w4.
    now apply main_iteration_raises_env.
Qed.

Lemma main_invalid_library (E : Env) matrices type library (num_runs : Z) w :
  ~ valid_library library -> matrices <> [] -> (0 < num_runs)%Z ->
  exists lines,
    main E matrices type library num_runs w
    = (Raises (UnboundLocalError "A"), world_after w 0 [] lines).
Proof.
  intros Hv Hms Hn. destruct matrices as [|p ms]; [congruence|].
  destruct (Z.to_nat num_runs) as [|k] eqn:Hk; [lia|].
  eexists. unfold main.
  erewrite bind_returns by apply print_run.
  erewrite bind_returns by apply print_all_run.
  apply bind_raises. rewrite Hk. cbn [seq for_each].
  apply bind_raises. unfold main_run.
  erewrite bind_returns by apply print_run.
  erewrite bind_returns by apply print_run.
  unfold enumerate. cbn [length seq combine for_each].
  apply bind_raises. unfold main_iteration.
  erewrite bind_returns by (now apply load_step_invalid).
  unfold read_local, bind, raise.
  rewrite !world_after_print. reflexivity.
Qed.

Example unknown_library_no_trial :
  fst (main Demo.env ["./data/a.mtx"] "def_pos" "foo" 0 (Demo.world Demo.disk))
  = Returns [].
Proof. vm_compute. reflexivity. Qed.

Example unknown_library_one_trial :
  main Demo.env ["./data/a.mtx"] "def_pos" "foo" 1 (Demo.world Demo.disk)
  = (Raises (UnboundLocalError "A"),
     world_after (Demo.world Demo.disk) 0 []
       ["Discovered these matrices:"; "./data/a.mtx";
        LF ++ "## ------------------------ ##"; "Run 1/1 with all matrices"]).
Proof. vm_compute. reflexivity. Qed.

(** C10, as amended. For a library name outside ['mkl'], ['umfpack'] and
    ['superlu'] the load step assigns nothing to [A]; with a non-empty list
    of matrices and at least one trial, the run is aborted in its first
    iteration by [UnboundLocalError] on [A], having done nothing but print:
    no file was read and no solver code ran, the adapter's own check of the
    name included. For the three valid names the load step leaves [A]
    assigned whenever it returns, and every exception that ends the run
    comes from outside the harness (a file that cannot be opened, the
    missing pypardiso module, an error raised by a library), never from
    reading [A] or from the adapter's check. *)
Theorem unknown_library_leaves_matrix_unbound :
  (forall (E : Env) library path w,
     ~ valid_library library ->
     load_step E library path w = (Returns None, w))
  /\
  (forall (E : Env) matrices type library (num_runs : Z) w,
     ~ valid_library library -> matrices <> [] -> (0 < num_runs)%Z ->
     exists lines,
       main E matrices type library num_runs w
       = (Raises (UnboundLocalError "A"), world_after w 0 [] lines))
  /\
  (forall (E : Env) library path w a w',
     valid_library library ->
     load_step E library path w = (Returns a, w') -> exists m, a = Some m)
  /\
  (forall (E : Env) matrices type library (num_runs : Z) w e w',
     valid_library library ->
     main E matrices type library num_runs w = (Raises e, w') ->
     environment_error E e).
Proof.
  split; [|split; [|split]].
  - intros. now apply load_step_invalid.
  - intros. now apply main_invalid_library.
  - intros. eapply load_step_returns_some; eassumption.
  - intros. eapply main_raises_env; eassumption.
Qed.

Lemma not_valid_foo : ~ valid_library "foo".
Proof. intros [H|[H|H]]; inversion H. Qed.

Lemma unknown_library_leaves_matrix_unbound_witness :
  load_step Demo.env "foo" "./data/a.mtx" (Demo.world Demo.disk)
    = (Returns None, Demo.world Demo.disk)
  /\ (exists lines,
        main Demo.env ["./data/a.mtx"] "def_pos" "foo" 1 (Demo.world Demo.disk)
        = (Raises (UnboundLocalError "A"),
           world_after (Demo.world Demo.disk) 0 [] lines))
  /\ (exists m,
        Some (loaded Demo.env "mkl" Demo.diag2) = Some m)
  /\ environment_error Demo.env (FileNotFoundError "./data/missing.mtx").
Proof.
  destruct unknown_library_leaves_matrix_unbound as (H1 & H2 & H3 & H4).
  split; [|split; [|split]].
  - apply H1, not_valid_foo.
  - apply H2; [apply not_valid_foo | discriminate | lia].
  - apply (H3 Demo.env "mkl" "./data/a.mtx" (Demo.world Demo.disk) _
             (world_after (Demo.world Demo.disk) 0 [EvRead "./data/a.mtx"] [])).
    + now left.
    + vm_compute. reflexivity.
  - apply (H4 Demo.env ["./data/missing.mtx"] "def_pos" "umfpack" 1%Z
             (Demo.world Demo.disk) _
             (snd (main Demo.env ["./data/missing.mtx"] "def_pos" "umfpack" 1%Z
                     (Demo.world Demo.disk)))).
    + right. now right.
    + vm_compute. reflexivity.
Defined.

(** C10, as stated, fails: with a trial count of zero the loop body never
    runs, and [main] returns the empty list whatever the library name. *)
Lemma unknown_library_without_trials_returns :
  ~ (forall (E : Env) matrices type library (num_runs : Z) w,
       ~ valid_library library -> matrices <> [] ->
       exists w',
         main E matrices type library num_runs w
         = (Raises (UnboundLocalError "A"), w')).
Proof.
  intros H.
  destruct (H Demo.env ["./data/a.mtx"] "def_pos" "foo" 0%Z
              (Demo.world Demo.disk) not_valid_foo) as (w' & Hrun);
    [discriminate|].
  apply (f_equal fst) in Hrun. rewrite unknown_library_no_trial in Hrun.
  discriminate.
Qed.

(** * Further properties of the harness *)

(** ** What [main] leaves alone *)

Lemma read_only_ret {A} (a : A) : read_only (ret a).
Proof. intros w. split; reflexivity. Qed.

Lemma read_only_raise {A} (e : exn) : read_only (@raise A e).
Proof. intros w. split; reflexivity. Qed.

Lemma read_only_lift {A} (r : exn + A) : read_only (lift r).
Proof. destruct r; [apply read_only_raise | apply read_only_ret]. Qed.

Lemma read_only_bind {A B} (c : M A) (k : A -> M B) :
  read_only c -> (forall a, read_only (k a)) -> read_only (bind c k).
Proof.
  intros Hc Hk w. unfold bind. specialize (Hc w).
  destruct (c w) as [[a|e] w1]; simpl in Hc.
  - destruct Hc as [Hc1 Hc2]. destruct (Hk a w1) as [Hf Hs].
    split; congruence.
  - exact Hc.
Qed.

Lemma read_only_print line : read_only (print line).
Proof. intros w. split; reflexivity. Qed.

Lemma read_only_log_event ev : read_only (log_event ev).
Proof. intros w. split; reflexivity. Qed.

Lemma read_only_tick : read_only tick.
Proof. intros w. split; reflexivity. Qed.

Lemma read_only_get_files : read_only get_files.
Proof. intros w. split; reflexivity. Qed.

Lemma read_only_read_local {A} name (v : option A) : read_only (read_local name v).
Proof. destruct v; [apply read_only_ret | apply read_only_raise]. Qed.

Lemma read_only_for_each {A S} (body : A -> S -> M S) (l : list A) :
  (forall x s, read_only (body x s)) -> forall s, read_only (for_each l body s).
Proof.
  intros Hbody. induction l as [|x l IH]; intros s; simpl.
  - apply read_only_ret.
  - apply read_only_bind; [apply Hbody | exact IH].
Qed.

Create HintDb read_only.
#[local] Hint Resolve read_only_ret read_only_raise read_only_lift
  read_only_print read_only_log_event read_only_tick read_only_get_files
  read_only_read_local : read_only.

Ltac read_only_steps :=
  repeat first
    [ apply read_only_bind; [|intro]
    | solve [auto with read_only] ].

Lemma read_only_mmread (E : Env) path : read_only (mmread E path).
Proof.
  unfold mmread. read_only_steps.
  destruct (_ !! path) as [[text|]|]; auto with read_only.
Qed.

Lemma read_only_load_matrix (E : Env) path fmt : read_only (load_matrix E path fmt).
Proof.
  unfold load_matrix.
  destruct (String.eqb fmt "csr"); [|destruct (String.eqb fmt "csc")];
    try (apply read_only_bind; [apply read_only_mmread | intro]);
    auto with read_only.
Qed.

Lemma read_only_load_step (E : Env) library path : read_only (load_step E library path).
Proof.
  unfold load_step.
  destruct (String.eqb library "mkl");
    [|destruct (String.eqb library "umfpack" || String.eqb library "superlu")];
    try (apply read_only_bind; [apply read_only_load_matrix | intro]);
    auto with read_only.
Qed.

Lemma read_only_time_time (E : Env) : read_only (time_time E).
Proof. unfold time_time. read_only_steps. Qed.

Lemma read_only_pypardiso_spsolve (E : Env) A b : read_only (pypardiso_spsolve E A b).
Proof.
  unfold pypardiso_spsolve. destruct (pypardiso_imported E); read_only_steps.
Qed.

Lemma read_only_scipy_spsolve (E : Env) A b u : read_only (scipy_spsolve E A b u).
Proof. unfold scipy_spsolve. destruct u; read_only_steps. Qed.

Lemma read_only_try_umfpack (E : Env) A b : read_only (try_umfpack E A b).
Proof.
  intros w. unfold try_umfpack.
  pose proof (read_only_scipy_spsolve E A b true w) as H.
  destruct (scipy_spsolve E A b true w) as [[x|e] w1]; simpl in H;
    [exact H|].
  destruct e; exact H.
Qed.

Lemma read_only_solve_with_profiling (E : Env) A b name type library :
  read_only (solve_with_profiling E A b name type library).
Proof.
  unfold solve_with_profiling.
  apply read_only_bind.
  - destruct (String.eqb library "mkl");
      [|destruct (String.eqb library "superlu");
        [|destruct (String.eqb library "umfpack")]];
      repeat first
        [ apply read_only_time_time
        | apply read_only_pypardiso_spsolve
        | apply read_only_scipy_spsolve
        | apply read_only_try_umfpack
        | solve [auto with read_only]
        | apply read_only_bind; [|intro] ].
  - intros [[[x f] t0] t1].
    apply read_only_bind; [|intro; auto with read_only].
    destruct (negb f); read_only_steps.
Qed.

Lemma read_only_main_iteration (E : Env) matrices type library i ip rs :
  read_only (main_iteration E matrices type library i ip rs).
Proof.
  destruct ip as [index path]. unfold main_iteration.
  repeat first
    [ apply read_only_load_step
    | apply read_only_solve_with_profiling
    | solve [auto with read_only]
    | apply read_only_bind; [|intro] ].
Qed.

Lemma read_only_main (E : Env) matrices type library num_runs :
  read_only (main E matrices type library num_runs).
Proof.
  unfold main.
  apply read_only_bind; [auto with read_only | intro].
  apply read_only_bind;
    [apply read_only_for_each; intros; auto with read_only | intro].
  apply read_only_bind; [|intro; read_only_steps].
  apply read_only_for_each. intros i rs. unfold main_run.
  apply read_only_bind; [auto with read_only | intro].
  apply read_only_bind; [auto with read_only | intro].
  apply read_only_for_each. intros ip rs0. apply read_only_main_iteration.
Qed.

(** [main] never writes: whatever the arguments, the environment and the
    outcome (a list of results or an exception), the file system and the
    standard input are the same after the run as before it. *)
Theorem main_leaves_files_alone
    (E : Env) matrices type library (num_runs : Z) (w : World) :
  files (snd (main E matrices type library num_runs w)) = files w
  /\ stdin (snd (main E matrices type library num_runs w)) = stdin w.
Proof.
  destruct (read_only_main E matrices type library num_runs w) as [Hf Hs].
  split; assumption.
Qed.

(** ** [main] with nothing to do *)

Lemma idle_run (E : Env) type library num_runs i w :
  exists lines,
    main_run E [] type library num_runs i [] w
    = (Returns [], world_after w 0 [] lines).
Proof.
  unfold main_run.
  erewrite bind_returns by apply print_run.
  erewrite bind_returns by apply print_run.
  eexists. simpl. unfold ret. rewrite world_after_print. reflexivity.
Qed.

Lemma idle_runs (E : Env) type library num_runs (runs : list nat) : forall w,
  exists lines,
    for_each runs (main_run E [] type library num_runs) [] w
    = (Returns [], world_after w 0 [] lines).
Proof.
  induction runs as [|i runs IH]; intros w.
  - exists []. simpl. unfold ret. now rewrite world_after_nil.
  - cbn [for_each].
    destruct (idle_run E type library num_runs i w) as [l1 Hrun].
    erewrite bind_returns by exact Hrun.
    destruct (IH (world_after w 0 [] l1)) as [l2 ->].
    eexists. rewrite world_after_print. reflexivity.
Qed.

(** When the trial count is zero or negative, or the list of matrices is
    empty, [main] returns the empty list and does nothing but print: no
    file is read, no solver is called, the clock is not read. This holds
    for every library name, valid or not. *)
Theorem main_with_nothing_to_do
    (E : Env) matrices type library (num_runs : Z) (w : World) :
  (num_runs <= 0)%Z \/ matrices = [] ->
  exists lines,
    main E matrices type library num_runs w
    = (Returns [], world_after w 0 [] lines).
Proof.
  intros Hidle. unfold main.
  erewrite bind_returns by apply print_run.
  erewrite bind_returns by apply print_all_run.
  destruct Hidle as [Hn | ->].
  - replace (Z.to_nat num_runs) with 0 by lia. cbn [seq for_each].
    erewrite bind_returns by reflexivity.
    erewrite bind_returns by apply print_run.
    eexists. unfold ret. rewrite !world_after_print. reflexivity.
  - match goal with
    | |- context [bind (for_each (seq 0 ?k) _ []) _ ?w1] =>
        destruct (idle_runs E type library num_runs (seq 0 k) w1) as [lines Hrun]
    end.
    erewrite bind_returns by exact Hrun.
    erewrite bind_returns by apply print_run.
    eexists. unfold ret. rewrite !world_after_print. reflexivity.
Qed.

Lemma main_with_nothing_to_do_witness :
  (exists lines,
     main Demo.env ["./data/a.mtx"] "def_pos" "umfpack" (-5)
       (Demo.world Demo.disk)
     = (Returns [], world_after (Demo.world Demo.disk) 0 [] lines))
  /\ (exists lines,
     main Demo.env [] "def_pos" "foo" 3 (Demo.world Demo.disk)
     = (Returns [], world_after (Demo.world Demo.disk) 0 [] lines)).
Proof.
  split.
  - apply (main_with_nothing_to_do Demo.env ["./data/a.mtx"] "def_pos"
             "umfpack" (-5)). left. lia.
  - apply (main_with_nothing_to_do Demo.env [] "def_pos" "foo" 3).
    right. reflexivity.
Defined.

(** ** More on [solve_with_profiling] *)

(** For a library name outside ['mkl'], ['superlu'] and ['umfpack'],
    [solve_with_profiling] raises [KeyError], not [ValueError]: the braces
    in the text of its error message are replacement fields for
    [str.format]. It raises before the clock is read or a solver is called:
    the world is unchanged. *)
Theorem unknown_library_raises_KeyError
    (E : Env) A b name type library (w : World) :
  ~ valid_library library ->
  solve_with_profiling E A b name type library w
  = (Raises (KeyError "'mkl', 'umfpack', 'superlu'"), w)
  /\ (forall msg, fst (solve_with_profiling E A b name type library w)
                  <> Raises (ValueError msg)).
Proof.
  intros Hv. rewrite solve_with_profiling_invalid by assumption.
  split; [reflexivity|]. intros msg. simpl. discriminate.
Qed.

Lemma unknown_library_raises_KeyError_witness :
  solve_with_profiling Demo.env Demo.diag2 (rhs Demo.diag2) "a.mtx" "def_pos"
    "foo" (Demo.world Demo.disk)
  = (Raises (KeyError "'mkl', 'umfpack', 'superlu'"), Demo.world Demo.disk)
  /\ (forall msg,
        fst (solve_with_profiling Demo.env Demo.diag2 (rhs Demo.diag2) "a.mtx"
               "def_pos" "foo" (Demo.world Demo.disk))
        <> Raises (ValueError msg)).
Proof.
  apply (unknown_library_raises_KeyError Demo.env). apply not_valid_foo.
Defined.

Lemma solve_with_profiling_returns_world (E : Env) A b name type library w r w' :
  solve_with_profiling E A b name type library w = (Returns r, w') ->
  exists lines,
    w' = world_after w 3 [EvSolve library (sp_format A)] lines.
Proof.
  intros Hret.
  destruct (valid_library_dec library) as [Hv|Hv];
    [|rewrite solve_with_profiling_invalid in Hret by assumption; discriminate].
  assert (library = "mkl" -> pypardiso_imported E = true) as Himp.
  { intros ->. destruct (pypardiso_imported E) eqn:Hp; [reflexivity|].
    rewrite solve_with_profiling_no_pypardiso in Hret by assumption.
    discriminate. }
  rewrite solve_with_profiling_valid in Hret by assumption.
  destruct (backend E library (S (clock w)) A b) as [e|x].
  - destruct (handled library e); [|discriminate].
    injection Hret as _ <-. eexists. reflexivity.
  - destruct (get_relative_error E _ x); [discriminate|].
    injection Hret as _ <-. eexists. reflexivity.
Qed.

(** Every result [solve_with_profiling] returns carries the caller's matrix
    name and problem class, the library name, and the dimensions written as
    rows, an [x], columns. Its start time is the reading of the clock just
    before the one call into the solver and its end time the reading just
    after; nothing else is timed, and the call is the only event. *)
Theorem result_describes_the_call
    (E : Env) A b name type library (w : World) (r : RunResult) (w' : World) :
  solve_with_profiling E A b name type library w = (Returns r, w') ->
  matrix_name r = name
  /\ matrix_type r = type
  /\ solver_library r = library
  /\ matrix_dimensions r
     = pretty (fst (sp_shape A)) ++ "x" ++ pretty (snd (sp_shape A))
  /\ start_time r = time_at E (clock w)
  /\ end_time r = time_at E (2 + clock w)
  /\ clock w' = 3 + clock w
  /\ trace w' = (trace w ++ [EvSolve library (sp_format A)])%list.
Proof.
  intros Hret.
  destruct (solve_with_profiling_returns_world _ _ _ _ _ _ _ _ _ Hret)
    as [lines ->].
  destruct (solve_with_profiling_returns _ _ _ _ _ _ _ _ _ Hret)
    as [(x & f & _ & _ & ->) | (_ & _ & ->)]; simpl; repeat split.
Qed.

Lemma result_describes_the_call_witness :
  let r := measured Demo.env Demo.diag2 "a.mtx" "def_pos" "umfpack" 0
             (PyFloat F64.zero) 0 in
  let w := Demo.world Demo.disk in
  let w' := world_after w 3 [EvSolve "umfpack" COO] [] in
  matrix_name r = "a.mtx"
  /\ matrix_type r = "def_pos"
  /\ solver_library r = "umfpack"
  /\ matrix_dimensions r = pretty 2 ++ "x" ++ pretty 2
  /\ start_time r = time_at Demo.env (clock w)
  /\ end_time r = time_at Demo.env (2 + clock w)
  /\ clock w' = 3 + clock w
  /\ trace w' = (trace w ++ [EvSolve "umfpack" COO])%list.
Proof.
  exact (result_describes_the_call Demo.env Demo.diag2 (rhs Demo.diag2)
           "a.mtx" "def_pos" "umfpack" (Demo.world Demo.disk) _ _
           exact_answer_gives_zero).
Defined.

Lemma handled_false library e :
  (library = "umfpack" -> e <> MemoryError) -> handled library e = false.
Proof.
  intros H. unfold handled.
  destruct (String.eqb_spec library "umfpack") as [Hl|Hl]; [|reflexivity].
  simpl. destruct e; try reflexivity. now elim (H Hl).
Qed.

(** Only UMFPACK's [MemoryError] is caught. An error raised by the backend
    (any error of PARDISO or SuperLU, their [MemoryError] included, and any
    error of UMFPACK other than [MemoryError]) leaves [solve_with_profiling]
    as it is, right after the call: the end time is never read and no
    result is built. *)
Theorem other_solver_errors_propagate
    (E : Env) A b name type library (w : World) (e : exn) :
  valid_library library ->
  (library = "mkl" -> pypardiso_imported E = true) ->
  backend E library (S (clock w)) A b = inl e ->
  (library = "umfpack" -> e <> MemoryError) ->
  solve_with_profiling E A b name type library w
  = (Raises e, world_after w 2 [EvSolve library (sp_format A)] []).
Proof.
  intros Hv Himp Hb He.
  rewrite solve_with_profiling_valid by assumption.
  rewrite Hb, handled_false by assumption. reflexivity.
Qed.

Lemma other_solver_errors_propagate_witness :
  solve_with_profiling (Demo.env_with Demo.exact_solver Demo.oom_solver)
    Demo.diag2 (rhs Demo.diag2) "a.mtx" "def_pos" "superlu"
    (Demo.world Demo.disk)
  = (Raises MemoryError,
     world_after (Demo.world Demo.disk) 2 [EvSolve "superlu" COO] []).
Proof.
  apply (other_solver_errors_propagate
           (Demo.env_with Demo.exact_solver Demo.oom_solver)
           Demo.diag2 (rhs Demo.diag2) "a.mtx" "def_pos" "superlu"
           (Demo.world Demo.disk) MemoryError).
  - right. now left.
  - reflexivity.
  - reflexivity.
  - str_neq.
Defined.

(** When [import pypardiso] failed, choosing ['mkl'] raises [NameError] at
    the first solve, after the start time is read and before any solver
    runs; for every other library name the outcome of the import changes
    nothing. *)
Theorem missing_pypardiso_breaks_mkl_only
    (E : Env) A b name type library (w : World) :
  pypardiso_imported E = false ->
  solve_with_profiling E A b name type "mkl" w
  = (Raises (NameError "pypardiso"), world_after w 1 [] [])
  /\ (library <> "mkl" ->
      solve_with_profiling E A b name type library w
      = solve_with_profiling (set_pypardiso E true) A b name type library w).
Proof.
  intros Himp. split; [now apply solve_with_profiling_no_pypardiso|].
  intros Hne. unfold solve_with_profiling.
  destruct (String.eqb_spec library "mkl") as [Hl|_]; [congruence|].
  reflexivity.
Qed.

Lemma missing_pypardiso_breaks_mkl_only_witness :
  let E := set_pypardiso Demo.env false in
  solve_with_profiling E Demo.diag2 (rhs Demo.diag2) "a.mtx" "def_pos" "mkl"
    (Demo.world Demo.disk)
  = (Raises (NameError "pypardiso"), world_after (Demo.world Demo.disk) 1 [] [])
  /\ ("superlu" <> "mkl" ->
      solve_with_profiling E Demo.diag2 (rhs Demo.diag2) "a.mtx" "def_pos"
        "superlu" (Demo.world Demo.disk)
      = solve_with_profiling (set_pypardiso E true) Demo.diag2 (rhs Demo.diag2)
          "a.mtx" "def_pos" "superlu" (Demo.world Demo.disk)).
Proof.
  apply (missing_pypardiso_breaks_mkl_only (set_pypardiso Demo.env false)).
  reflexivity.
Defined.

(** ** Loading *)

(** For a layout of ['csr'] or ['csc'] and a path that names a file the
    parser accepts, [load_matrix] opens the file once and returns a matrix
    of the parsed shape in the layout asked for. Nothing is cached: a second
    call opens the file again. *)
Theorem load_matrix_reads_the_file_every_time
    (E : Env) path fmt text (m : spmatrix) (w : World) :
  fmt = "csr" \/ fmt = "csc" ->
  files w !! path = Some (File text) ->
  mm_parse E text = inr m ->
  exists A,
    load_matrix E path fmt w = (Returns A, world_after w 0 [EvRead path] [])
    /\ sp_shape A = sp_shape m
    /\ sp_format A = (if String.eqb fmt "csr" then CSR else CSC)
    /\ (load_matrix E path fmt ;;; load_matrix E path fmt) w
       = (Returns A, world_after w 0 [EvRead path; EvRead path] []).
Proof.
  intros Hfmt Hf Hm.
  assert (forall w0, files w0 !! path = Some (File text) ->
            load_matrix E path fmt w0
            = (Returns (if String.eqb fmt "csr" then tocsr E m else tocsc E m),
               world_after w0 0 [EvRead path] [])) as Hload.
  { intros w0 Hf0. unfold load_matrix.
    destruct Hfmt as [-> | ->]; simpl;
      (erewrite bind_returns by (rewrite mmread_run, Hf0, Hm; reflexivity));
      reflexivity. }
  eexists. split; [apply Hload, Hf|]. split; [|split].
  - now destruct (String.eqb fmt "csr").
  - now destruct (String.eqb fmt "csr").
  - erewrite bind_returns by (apply Hload, Hf).
    rewrite Hload by exact Hf.
    unfold world_after. simpl. rewrite !app_nil_r, <- app_assoc. reflexivity.
Qed.

Lemma load_matrix_reads_the_file_every_time_witness :
  exists A,
    load_matrix Demo.env "./data/a.mtx" "csc" (Demo.world Demo.disk)
    = (Returns A, world_after (Demo.world Demo.disk) 0 [EvRead "./data/a.mtx"] [])
    /\ sp_shape A = sp_shape Demo.diag2
    /\ sp_format A = (if String.eqb "csc" "csr" then CSR else CSC)
    /\ (load_matrix Demo.env "./data/a.mtx" "csc" ;;;
        load_matrix Demo.env "./data/a.mtx" "csc") (Demo.world Demo.disk)
       = (Returns A,
          world_after (Demo.world Demo.disk) 0
            [EvRead "./data/a.mtx"; EvRead "./data/a.mtx"] []).
Proof.
  apply (load_matrix_reads_the_file_every_time Demo.env "./data/a.mtx" "csc"
           "diag2" Demo.diag2 (Demo.world Demo.disk)).
  - now right.
  - reflexivity.
  - reflexivity.
Defined.

(** ** The name of a matrix *)

Lemma py_split_not_nil sep s : py_split sep s <> [].
Proof.
  destruct s as [|c r]; simpl; [discriminate|].
  destruct (Ascii.eqb c sep); [discriminate|].
  destruct (py_split sep r); discriminate.
Qed.

Lemma py_split_no_slash s : no_slash s = true -> py_split "/" s = [s].
Proof.
  induction s as [|c r IH]; simpl; [reflexivity|].
  intros H. apply andb_prop in H as [Hc Hr].
  apply negb_true_iff in Hc. rewrite Hc, (IH Hr). reflexivity.
Qed.

Lemma py_split_join dir name :
  py_split "/" (dir ++ "/" ++ name)
  = (py_split "/" dir ++ py_split "/" name)%list.
Proof.
  induction dir as [|c dir IH].
  - reflexivity.
  - change (String c dir ++ "/" ++ name) with (String c (dir ++ "/" ++ name)).
    cbn [py_split]. rewrite IH.
    destruct (Ascii.eqb c "/"); [reflexivity|].
    destruct (py_split "/" dir) as [|h t] eqn:Hd;
      [now elim (py_split_not_nil "/" dir) | reflexivity].
Qed.

Lemma py_last_file_name dir name :
  no_slash name = true -> py_last (py_split "/" (dir ++ "/" ++ name)) = name.
Proof.
  intros Hn. rewrite py_split_join, (py_split_no_slash name Hn).
  unfold py_last. apply last_last.
Qed.

Lemma main_iteration_returns (E : Env) matrices type library i index path rs w
    rs' w' :
  main_iteration E matrices type library i (index, path) rs w
  = (Returns rs', w') ->
  exists r, rs' = (rs ++ [r])%list /\ matrix_name r = file_name path.
Proof.
  unfold main_iteration. unfold bind at 1.
  destruct (load_step E library path w) as [[[A|]|e] w1]; try discriminate.
  unfold read_local. erewrite bind_returns by reflexivity.
  erewrite bind_returns by apply print_run.
  rewrite create_b_returns. erewrite bind_returns by reflexivity.
  unfold bind at 1.
  destruct (solve_with_profiling E A _ _ type library _) as [[r|e] w2] eqn:Hs;
    [|discriminate].
  erewrite bind_returns by apply print_run.
  intros [= <- _]. exists r. split; [reflexivity|].
  destruct (solve_with_profiling_returns _ _ _ _ _ _ _ _ _ Hs)
    as [(x & f & _ & _ & ->) | (_ & _ & ->)]; reflexivity.
Qed.

(** The matrix name that [main] records is the file name, the part of the
    path after its last ['/']: whenever the iteration over [dir/name]
    returns, it has appended exactly one result, and the [matrix_name] of
    that result is [name]. *)
Theorem recorded_name_is_the_file_name
    (E : Env) matrices type library i index dir name rs (w : World)
    rs' (w' : World) :
  no_slash name = true ->
  main_iteration E matrices type library i (index, dir ++ "/" ++ name) rs w
  = (Returns rs', w') ->
  exists r, rs' = (rs ++ [r])%list /\ matrix_name r = name.
Proof.
  intros Hn Hrun.
  destruct (main_iteration_returns _ _ _ _ _ _ _ _ _ _ _ Hrun) as (r & -> & Hname).
  exists r. split; [reflexivity|].
  rewrite Hname. unfold file_name. now apply py_last_file_name.
Qed.

Lemma recorded_name_is_the_file_name_witness :
  exists r,
    [measured Lab.env (loaded Lab.env "superlu" Demo.diag2) "a.mtx" "def_pos"
       "superlu" 0 (PyFloat F64.zero) 0]
    = ([] ++ [r])%list
    /\ matrix_name r = "a.mtx".
Proof.
  apply (recorded_name_is_the_file_name Lab.env ["./data/a.mtx"] "def_pos"
           "superlu" 0 0 "./data" "a.mtx" [] (Demo.world Demo.disk) _
           (snd (main_iteration Lab.env ["./data/a.mtx"] "def_pos" "superlu" 0
                   (0, "./data/a.mtx") [] (Demo.world Demo.disk)))).
  - reflexivity.
  - vm_compute. reflexivity.
Defined.

(** ** More on [log_results] *)

Lemma log_results_on_directory (E : Env) rs filename w :
  rs <> [] ->
  files w !! result_path filename = Some Dir ->
  log_results E rs filename w
  = (Raises (IsADirectoryError (result_path filename)),
     world_after w 0 [EvStat (result_path filename);
                      EvCreate (result_path filename)] []).
Proof.
  intros Hrs Hf. destruct rs as [|r0 rs0]; [congruence|].
  unfold log_results. cbv iota.
  set (path := result_path filename) in *.
  erewrite bind_returns by apply is_file_run.
  rewrite Hf. cbn [negb].
  apply bind_raises. apply bind_raises.
  unfold open_w, bind, log_event, get_files, raise, world_after. simpl.
  rewrite Hf, !app_nil_r, <- app_assoc. reflexivity.
Qed.

(** When the destination is a directory, [log_results] with results raises
    [IsADirectoryError] as it tries to create the file; the file system is
    left as it was and no row is written. *)
Theorem log_results_refuses_a_directory
    (E : Env) rs filename (w : World) :
  rs <> [] ->
  files w !! result_path filename = Some Dir ->
  exists w',
    log_results E rs filename w
    = (Raises (IsADirectoryError (result_path filename)), w')
    /\ files w' = files w
    /\ stdout w' = stdout w.
Proof.
  intros Hrs Hf. eexists. split; [now apply log_results_on_directory|].
  unfold world_after. simpl. split; [reflexivity | apply app_nil_r].
Qed.

Lemma log_results_refuses_a_directory_witness :
  exists w',
    log_results Demo.env [Demo.result0] "d"
      (Demo.world (<[result_path "d" := Dir]> Demo.disk))
    = (Raises (IsADirectoryError (result_path "d")), w')
    /\ files w' = files (Demo.world (<[result_path "d" := Dir]> Demo.disk))
    /\ stdout w' = stdout (Demo.world (<[result_path "d" := Dir]> Demo.disk)).
Proof.
  apply (log_results_refuses_a_directory Demo.env [Demo.result0] "d").
  - discriminate.
  - reflexivity.
Defined.

(** The files after [log_results], whatever the destination was. *)
Lemma log_results_files (E : Env) rs filename w :
  files (snd (log_results E rs filename w))
  = match rs, files w !! result_path filename with
    | [], _ | _, Some Dir => files w
    | _, None =>
        <[result_path filename := File (header_text E ++ rows_text E rs)]>
          (files w)
    | _, Some (File text) =>
        <[result_path filename := File (text ++ rows_text E rs)]> (files w)
    end.
Proof.
  destruct rs as [|r0 rs0]; [reflexivity|].
  destruct (files w !! result_path filename) as [[text|]|] eqn:Hf.
  - destruct (log_results_existing E (r0 :: rs0) filename text w)
      as (w' & -> & Hfs & _); [discriminate | exact Hf | exact Hfs].
  - rewrite log_results_on_directory by (discriminate || exact Hf). reflexivity.
  - destruct (log_results_fresh E (r0 :: rs0) filename w)
      as (w' & -> & Hfs & _); [discriminate | exact Hf | exact Hfs].
Qed.

(** [log_results] touches the destination only: every other path holds
    after the call what it held before, whether the call returns or
    raises. *)
Theorem log_results_touches_the_destination_only
    (E : Env) rs filename (w : World) (p : string) :
  p <> result_path filename ->
  files (snd (log_results E rs filename w)) !! p = files w !! p.
Proof.
  intros Hp. rewrite log_results_files.
  destruct rs as [|r0 rs0]; [reflexivity|].
  destruct (files w !! result_path filename) as [[text|]|];
    try reflexivity; now rewrite lookup_insert_ne.
Qed.

Lemma log_results_touches_the_destination_only_witness :
  files (snd (log_results Demo.env [Demo.result0] "log" (Demo.world Demo.disk)))
    !! "./data/a.mtx"
  = files (Demo.world Demo.disk) !! "./data/a.mtx".
Proof.
  apply (log_results_touches_the_destination_only Demo.env [Demo.result0]
           "log" (Demo.world Demo.disk) "./data/a.mtx").
  str_neq.
Defined.

Lemma rows_text_app (E : Env) rs1 rs2 :
  rows_text E (rs1 ++ rs2)%list = rows_text E rs1 ++ rows_text E rs2.
Proof.
  induction rs1 as [|r rs1 IH]; [reflexivity|].
  cbn [app rows_text]. now rewrite IH, string_app_assoc.
Qed.

Lemma log_results_dir_after (E : Env) rs filename w :
  files w !! result_path filename = Some Dir ->
  files (snd (log_results E rs filename w)) !! result_path filename = Some Dir.
Proof.
  intros Hf. rewrite log_results_files, Hf. now destruct rs.
Qed.

(** Logging is cumulative: two calls, one after the other, leave the file
    system as one call with the two sequences joined would. This holds for
    a destination that is missing or is a file, and for empty sequences
    too. *)
Theorem logging_twice_is_logging_the_concatenation
    (E : Env) rs1 rs2 filename (w : World) :
  files w !! result_path filename <> Some Dir ->
  files (snd ((log_results E rs1 filename ;;; log_results E rs2 filename) w))
  = files (snd (log_results E (rs1 ++ rs2)%list filename w)).
Proof.
  intros Hd. unfold bind.
  destruct (log_results E rs1 filename w) as [[[]|e] w1] eqn:Hrun1.
  - pose proof (log_results_files E rs1 filename w) as H1.
    rewrite Hrun1 in H1. simpl in H1.
    rewrite !log_results_files, H1.
    destruct rs1 as [|r1 rs1']; [reflexivity|].
    destruct (files w !! result_path filename) as [[text|]|] eqn:Hf;
      [|congruence|].
    + rewrite lookup_insert_eq. cbn [app].
      destruct rs2 as [|r2 rs2'].
      * now rewrite app_nil_r.
      * rewrite insert_insert_eq.
        change (r1 :: (rs1' ++ r2 :: rs2'))%list
          with ((r1 :: rs1') ++ r2 :: rs2')%list.
        rewrite (rows_text_app E (r1 :: rs1') (r2 :: rs2')).
        now rewrite string_app_assoc.
    + rewrite lookup_insert_eq. cbn [app].
      destruct rs2 as [|r2 rs2'].
      * now rewrite app_nil_r.
      * rewrite insert_insert_eq.
        change (r1 :: (rs1' ++ r2 :: rs2'))%list
          with ((r1 :: rs1') ++ r2 :: rs2')%list.
        rewrite (rows_text_app E (r1 :: rs1') (r2 :: rs2')).
        now rewrite !string_app_assoc.
  - exfalso.
    destruct rs1 as [|r1 rs1']; [discriminate|].
    destruct (files w !! result_path filename) as [[text|]|] eqn:Hf;
      [|congruence|].
    + destruct (log_results_existing E (r1 :: rs1') filename text w)
        as (w' & Hr & _); [discriminate | exact Hf | congruence].
    + destruct (log_results_fresh E (r1 :: rs1') filename w)
        as (w' & Hr & _); [discriminate | exact Hf | congruence].
Qed.

Lemma logging_twice_is_logging_the_concatenation_witness :
  files (snd ((log_results Demo.env [Demo.result0] "log" ;;;
               log_results Demo.env [Demo.result0; Demo.result0] "log")
                (Demo.world Demo.disk)))
  = files (snd (log_results Demo.env
                  ([Demo.result0] ++ [Demo.result0; Demo.result0])%list "log"
                  (Demo.world Demo.disk))).
Proof.
  apply (logging_twice_is_logging_the_concatenation Demo.env [Demo.result0]
           [Demo.result0; Demo.result0] "log" (Demo.world Demo.disk)).
  discriminate.
Defined.

(** ** The command line *)

Lemma not_in_library_names library :
  ~ In library library_names ->
  existsb (String.eqb library) library_names = false.
Proof.
  intros Hn. destruct (existsb _ library_names) eqn:Hex; [|reflexivity].
  apply existsb_exists in Hex as (x & Hin & Heq).
  apply String.eqb_eq in Heq. subst. contradiction.
Qed.

(** The script checks its arguments before anything else. With a number of
    arguments other than two, a library name that is not one of the three,
    or a trial count that [int] cannot read, it raises [ValueError] and the
    world is untouched: nothing is printed, no question is asked, no
    directory is searched and no file is opened. *)
Theorem script_rejects_bad_arguments (E : Env) (argv : list string) (w : World) :
  length argv <> 3
  \/ (exists prog library runs,
        argv = [prog; library; runs]
        /\ (~ In library library_names \/ py_int E runs = None)) ->
  exists msg, script E argv w = (Raises (ValueError msg), w).
Proof.
  intros [Hlen | (prog & library & runs & -> & Hbad)].
  - destruct argv as [|a [|b [|c [|d rest]]]]; simpl in Hlen;
      try (eexists; reflexivity). congruence.
  - unfold script.
    destruct (existsb (String.eqb library) library_names) eqn:Hex; simpl.
    + destruct Hbad as [Hn | Hint].
      * rewrite not_in_library_names in Hex by assumption. discriminate.
      * rewrite Hint. eexists. reflexivity.
    + eexists. reflexivity.
Qed.

Lemma script_rejects_bad_arguments_witness :
  (exists msg,
     script Demo.env ["solver.py"; "foo"; "3"] (Demo.world Demo.disk)
     = (Raises (ValueError msg), Demo.world Demo.disk))
  /\ (exists msg,
     script Demo.env ["solver.py"; "mkl"; "three"] (Demo.world Demo.disk)
     = (Raises (ValueError msg), Demo.world Demo.disk))
  /\ (exists msg,
     script Demo.env ["solver.py"; "mkl"] (Demo.world Demo.disk)
     = (Raises (ValueError msg), Demo.world Demo.disk)).
Proof.
  split; [|split].
  - apply (script_rejects_bad_arguments Demo.env ["solver.py"; "foo"; "3"]).
    right. exists "solver.py", "foo", "3". split; [reflexivity|]. left.
    intros [H|[H|[H|[]]]]; inversion H.
  - apply (script_rejects_bad_arguments Demo.env ["solver.py"; "mkl"; "three"]).
    right. exists "solver.py", "mkl", "three". split; [reflexivity|]. now right.
  - apply (script_rejects_bad_arguments Demo.env ["solver.py"; "mkl"]).
    left. discriminate.
Defined.

Example int_reads_ascii_literals :
  py_int Demo.env " 30 " = Some 30%Z
  /\ py_int Demo.env (String (ascii_of_nat 9) "3") = Some 3%Z
  /\ py_int Demo.env "1_000" = Some 1000%Z
  /\ py_int Demo.env "+7" = Some 7%Z
  /\ py_int Demo.env "-2" = Some (-2)%Z
  /\ py_int Demo.env "007" = Some 7%Z.
Proof. vm_compute. repeat split. Qed.

Example int_rejects_malformed_literals :
  py_int Demo.env "" = None
  /\ py_int Demo.env "three" = None
  /\ py_int Demo.env "3.0" = None
  /\ py_int Demo.env "1__0" = None
  /\ py_int Demo.env "_1" = None
  /\ py_int Demo.env "+ 1" = None
  /\ py_int Demo.env (String (ascii_of_nat 28) "3") = None
  /\ py_int Demo.env (String (ascii_of_nat 31) "3") = None.
Proof. vm_compute. repeat split. Qed.

(** Text with a character outside ASCII (here the two bytes of an
    Arabic-Indic digit three) is read by the interpreter's own table. *)
Example int_outside_ascii (E : Env) :
  py_int E (String (ascii_of_nat 217) (String (ascii_of_nat 163) ""))
  = int_of_unicode E (String (ascii_of_nat 217) (String (ascii_of_nat 163) "")).
Proof. reflexivity. Qed.

(** A literal with more digits than the interpreter's limit is refused. *)
Example int_digit_limit :
  ascii_int 3 "1234" = None /\ ascii_int 4 "1_234" = Some 1234%Z
  /\ ascii_int 0 "1234" = Some 1234%Z.
Proof. vm_compute. repeat split. Qed.

(** ** The question before the run *)

Lemma input_run prompt l rest w :
  stdin w = l :: rest ->
  input prompt w
  = (Returns l,
     {| files := files w; stdout := stdout w ++ [prompt]; stdin := rest;
        clock := clock w; trace := trace w |}).
Proof. intros Hs. unfold input. now rewrite Hs. Qed.

Lemma wait_ready_answered pre : forall rest turns w,
  Forall (fun l => l <> "y") pre ->
  stdin w = (pre ++ "y" :: rest)%list ->
  length pre < turns ->
  wait_ready turns w = (Returns tt, after_input w (S (length pre)) rest).
Proof.
  induction pre as [|l pre IH]; intros rest turns w Hpre Hs Hlt;
    (destruct turns as [|t]; [simpl in Hlt; lia|]); cbn [wait_ready].
  - erewrite bind_returns by (apply input_run; exact Hs). reflexivity.
  - erewrite bind_returns by (apply input_run; exact Hs).
    inversion Hpre as [|? ? Hl Hpre']; subst.
    destruct (String.eqb_spec l "y") as [->|_]; [congruence|].
    rewrite (IH rest) by (assumption || reflexivity || (simpl in Hlt; lia)).
    unfold after_input. simpl. rewrite <- app_assoc. reflexivity.
Qed.

Lemma wait_ready_exhausted : forall (answers : list string) turns w,
  Forall (fun l => l <> "y") answers ->
  stdin w = answers ->
  length answers < turns ->
  wait_ready turns w = (Raises EOFError, after_input w (S (length answers)) []).
Proof.
  induction answers as [|l answers IH]; intros turns w Hall Hs Hlt;
    (destruct turns as [|t]; [simpl in Hlt; lia|]); cbn [wait_ready].
  - apply bind_raises. unfold input. now rewrite Hs.
  - erewrite bind_returns by (apply input_run; exact Hs).
    inversion Hall as [|? ? Hl Hall']; subst.
    destruct (String.eqb_spec l "y") as [->|_]; [congruence|].
    rewrite IH by (assumption || reflexivity || (simpl in Hlt; lia)).
    unfold after_input. simpl. rewrite <- app_assoc. reflexivity.
Qed.

(** The loop before the run asks its question once per line of input until
    a line is exactly [y]; every other answer, a capital Y or the empty
    line included, makes it ask again. It returns having read that line and
    no more. *)
Theorem ready_loop_stops_at_first_y
    (pre rest : list string) (w : World) :
  Forall (fun l => l <> "y") pre ->
  stdin w = (pre ++ "y" :: rest)%list ->
  wait_ready (S (length (stdin w))) w
  = (Returns tt, after_input w (S (length pre)) rest).
Proof.
  intros Hpre Hs. apply wait_ready_answered; [assumption..|].
  rewrite Hs, length_app. lia.
Qed.

Lemma ready_loop_stops_at_first_y_witness :
  let w := {| files := ∅; stdout := []; stdin := ["n"; "Y"; ""; "y"; "n"];
              clock := 0; trace := [] |} in
  wait_ready (S (length (stdin w))) w
  = (Returns tt, after_input w (S (length ["n"; "Y"; ""])) ["n"]).
Proof.
  apply (ready_loop_stops_at_first_y ["n"; "Y"; ""] ["n"]
           {| files := ∅; stdout := []; stdin := ["n"; "Y"; ""; "y"; "n"];
              clock := 0; trace := [] |}).
  - repeat constructor; str_neq.
  - reflexivity.
Defined.

(** When no line of the input is [y], the loop asks once per line and once
    more, and the last [input] raises [EOFError]: the run never starts. *)
Theorem ready_loop_ends_with_the_input (w : World) :
  Forall (fun l => l <> "y") (stdin w) ->
  wait_ready (S (length (stdin w))) w
  = (Raises EOFError, after_input w (S (length (stdin w))) []).
Proof.
  intros Hall. apply wait_ready_exhausted; [assumption | reflexivity | lia].
Qed.

Lemma ready_loop_ends_with_the_input_witness :
  let w := {| files := ∅; stdout := []; stdin := ["n"; "yes"];
              clock := 0; trace := [] |} in
  wait_ready (S (length (stdin w))) w
  = (Raises EOFError, after_input w (S (length (stdin w))) []).
Proof.
  apply (ready_loop_ends_with_the_input
           {| files := ∅; stdout := []; stdin := ["n"; "yes"];
              clock := 0; trace := [] |}).
  repeat constructor; str_neq.
Defined.

(** ** The script as a whole *)

Lemma read_only_keeps_files {A} (c : M A) : read_only c -> keeps_files c.
Proof. intros H w. apply H. Qed.

Lemma keeps_files_bind {A B} (c : M A) (k : A -> M B) :
  keeps_files c -> (forall a, keeps_files (k a)) -> keeps_files (bind c k).
Proof.
  intros Hc Hk w. unfold bind. specialize (Hc w).
  destruct (c w) as [[a|e] w1]; simpl in Hc; [|exact Hc].
  rewrite (Hk a w1). exact Hc.
Qed.

Lemma keeps_files_input prompt : keeps_files (input prompt).
Proof. intros w. unfold input. now destruct (stdin w). Qed.

Lemma keeps_files_wait_ready turns : keeps_files (wait_ready turns).
Proof.
  induction turns as [|t IH]; simpl.
  - apply read_only_keeps_files, read_only_raise.
  - apply keeps_files_bind; [apply keeps_files_input|].
    intros l. destruct (String.eqb l "y"); [|exact IH].
    apply read_only_keeps_files, read_only_ret.
Qed.

Lemma glob_run (E : Env) pattern w :
  glob E pattern w
  = (Returns (glob_glob E (files w) pattern),
     world_after w 0 [EvGlob pattern] []).
Proof.
  unfold glob, bind, log_event, get_files, ret, world_after. simpl.
  now rewrite app_nil_r.
Qed.

Lemma keeps_files_glob (E : Env) pattern : keeps_files (glob E pattern).
Proof. intros w. now rewrite glob_run. Qed.

Lemma writes_only_on_return_bind {A B} (c : M A) (k : A -> M B) :
  keeps_files c -> (forall a, writes_only_on_return (k a)) ->
  writes_only_on_return (bind c k).
Proof.
  intros Hc Hk w e w'. unfold bind. specialize (Hc w).
  destruct (c w) as [[a|e0] w1]; simpl in Hc.
  - intros Hrun. rewrite (Hk a w1 e w' Hrun). exact Hc.
  - intros [= _ <-]. exact Hc.
Qed.

Lemma log_results_raises (E : Env) rs filename w e w' :
  log_results E rs filename w = (Raises e, w') ->
  files w' = files w /\ files w !! result_path filename = Some Dir.
Proof.
  intros Hrun. destruct rs as [|r0 rs0]; [discriminate|].
  destruct (files w !! result_path filename) as [[text|]|] eqn:Hf.
  - destruct (log_results_existing E (r0 :: rs0) filename text w)
      as (w1 & Hr & _); [discriminate | exact Hf | congruence].
  - rewrite log_results_on_directory in Hrun by (discriminate || exact Hf).
    injection Hrun as _ <-. now split.
  - destruct (log_results_fresh E (r0 :: rs0) filename w)
      as (w1 & Hr & _); [discriminate | exact Hf | congruence].
Qed.

Lemma two_logs_write_only_on_return (E : Env) rs1 rs2 filename :
  writes_only_on_return
    (log_results E rs1 filename ;;; log_results E rs2 filename).
Proof.
  intros w e w'. unfold bind.
  destruct (log_results E rs1 filename w) as [[[]|e1] w1] eqn:Hrun1.
  - intros Hrun2. apply log_results_raises in Hrun2 as [Hfs Hdir].
    pose proof (log_results_files E rs1 filename w) as H1.
    rewrite Hrun1 in H1. simpl in H1.
    destruct rs1 as [|r1 rs1']; [congruence|].
    destruct (files w !! result_path filename) as [[text|]|];
      try congruence;
      rewrite H1, lookup_insert_eq in Hdir; discriminate.
  - intros [= _ <-]. now apply log_results_raises in Hrun1.
Qed.

(** When the script ends with an exception, wherever it comes from (the
    arguments, the question, a load, a solve, the log), the file system is
    as it was before the script started: results are written only after
    both corpora have been run through, so a failure loses them all. *)
Theorem script_failure_writes_nothing
    (E : Env) (argv : list string) (w : World) (e : exn) (w' : World) :
  script E argv w = (Raises e, w') -> files w' = files w.
Proof.
  revert w e w'. change (writes_only_on_return (script E argv)).
  assert (forall A (x : exn), writes_only_on_return (@raise A x)) as Hraise.
  { intros A x w e w' [= _ <-]. reflexivity. }
  unfold script.
  destruct argv as [|a0 [|a1 [|a2 [|a3 rest]]]]; try apply Hraise.
  destruct (existsb (String.eqb a1) library_names); simpl; [|apply Hraise].
  destruct (py_int E a2) as [n|]; [|apply Hraise].
  destruct (1 <=? n)%Z; simpl; [|apply Hraise].
  repeat (apply writes_only_on_return_bind;
          [apply read_only_keeps_files, read_only_print | intro]).
  apply writes_only_on_return_bind.
  { intros w0. exact (keeps_files_wait_ready (S (length (stdin w0))) w0). }
  intros _.
  apply writes_only_on_return_bind; [apply keeps_files_glob | intro].
  apply writes_only_on_return_bind;
    [apply read_only_keeps_files, read_only_main | intro].
  apply writes_only_on_return_bind; [apply keeps_files_glob | intro].
  apply writes_only_on_return_bind;
    [apply read_only_keeps_files, read_only_main | intro].
  apply two_logs_write_only_on_return.
Qed.

Example script_fails_on_unreadable_matrix :
  fst (script
         (set_glob Demo.env
            (found_corpora ["./data/a.mtx"] ["./data/missing.mtx"]))
         ["solver.py"; "umfpack"; "1"]
         {| files := Demo.disk; stdout := []; stdin := ["y"]; clock := 0;
            trace := [] |})
  = Raises (FileNotFoundError "./data/missing.mtx").
Proof. vm_compute. reflexivity. Qed.

Lemma script_failure_writes_nothing_witness :
  let E := set_glob Demo.env
             (found_corpora ["./data/a.mtx"] ["./data/missing.mtx"]) in
  let w := {| files := Demo.disk; stdout := []; stdin := ["y"]; clock := 0;
              trace := [] |} in
  files (snd (script E ["solver.py"; "umfpack"; "1"] w)) = files w.
Proof.
  apply (script_failure_writes_nothing
           (set_glob Demo.env
              (found_corpora ["./data/a.mtx"] ["./data/missing.mtx"]))
           ["solver.py"; "umfpack"; "1"]
           {| files := Demo.disk; stdout := []; stdin := ["y"]; clock := 0;
              trace := [] |}
           (FileNotFoundError "./data/missing.mtx")).
  vm_compute. reflexivity.
Defined.

Lemma sorted_nil (l : list string) : sorted l = [] -> l = [].
Proof.
  intros Hs. apply Permutation_nil. rewrite <- Hs. unfold sorted.
  apply (merge_sort_Permutation str_le l).
Qed.

Lemma concat_repeat_not_nil {A} (l : list A) k :
  l <> [] -> 0 < k -> concat (repeat l k) <> [].
Proof.
  intros Hl Hk. destruct k as [|k]; [lia|]. simpl.
  destruct l; [congruence | discriminate].
Qed.

Lemma two_logs_on_fresh_destination (E : Env) rs1 rs2 filename w :
  files w !! result_path filename = None ->
  rs1 <> [] \/ rs2 <> [] ->
  exists w',
    (log_results E rs1 filename ;;; log_results E rs2 filename) w
    = (Returns tt, w')
    /\ files w'
       = <[result_path filename :=
             File (header_text E ++ rows_text E rs1 ++ rows_text E rs2)]>
           (files w).
Proof.
  intros Hf Hne. destruct rs1 as [|r1 rs1'].
  - destruct Hne as [Hne|Hne]; [congruence|].
    destruct (log_results_fresh E rs2 filename w Hne Hf) as (w' & Hrun & Hfs & _).
    exists w'. erewrite bind_returns by reflexivity. now split.
  - destruct (log_results_fresh E (r1 :: rs1') filename w)
      as (w1 & Hrun1 & Hfs1 & _); [discriminate | exact Hf |].
    erewrite bind_returns by exact Hrun1.
    destruct rs2 as [|r2 rs2'].
    + exists w1. split; [reflexivity|]. rewrite Hfs1.
      cbn [rows_text]. now rewrite string_app_nil_r.
    + destruct (log_results_existing E (r2 :: rs2') filename
                  (header_text E ++ rows_text E (r1 :: rs1')) w1)
        as (w2 & Hrun2 & Hfs2 & _);
        [discriminate | rewrite Hfs1; apply lookup_insert_eq |].
      exists w2. split; [exact Hrun2|].
      rewrite Hfs2, Hfs1, insert_insert_eq, string_app_assoc. reflexivity.
Qed.

Lemma in_library_names_valid library :
  In library library_names -> valid_library library.
Proof.
  unfold valid_library. intros [<-|[<-|[<-|[]]]]; auto.
Qed.

(** A complete session. With a valid library, a trial count that reads as
    an integer of at least one, an operator who answers [y] at some point,
    every solve of the two runs ready to complete (each path of a corpus
    names a file that parses, and the backend answers the system built
    from it when its turn comes), and a log that does not exist yet, the
    script returns, and the log then holds the header once, the rows of
    the first corpus and the rows of the second. Within a corpus the
    results go trial by trial and, in a trial, in the sorted order of the
    paths; each is the measurement of its matrix under the matrix's file
    name. Both corpora are run with the same library and trial count, the
    second after the first. Nothing else in the file system changes. *)
Theorem script_logs_both_corpora
    (E : Env) prog library runs (n : Z) (pre rest : list string) (w : World) :
  In library library_names ->
  py_int E runs = Some n ->
  (1 <= n)%Z ->
  Forall (fun l => l <> "y") pre ->
  stdin w = (pre ++ "y" :: rest)%list ->
  run_ready E (files w) library (clock w)
    (symmetric_matrices E (files w)) (Z.to_nat n) ->
  run_ready E (files w) library
    (clock w + 3 * (Z.to_nat n * length (symmetric_matrices E (files w))))
    (unsym_matrices E (files w)) (Z.to_nat n) ->
  files w !! result_path log_name = None ->
  symmetric_matrices E (files w) <> [] \/ unsym_matrices E (files w) <> [] ->
  exists rs1 rs2 w',
    script E [prog; library; runs] w = (Returns tt, w')
    /\ files w'
       = <[result_path log_name :=
             File (header_text E ++ rows_text E rs1 ++ rows_text E rs2)]>
           (files w)
    /\ map matrix_name rs1
       = concat (repeat (map file_name (symmetric_matrices E (files w)))
                   (Z.to_nat n))
    /\ map matrix_name rs2
       = concat (repeat (map file_name (unsym_matrices E (files w)))
                   (Z.to_nat n))
    /\ Forall (right_result "def_pos" library) rs1
    /\ Forall (right_result "non_def_pos" library) rs2
    /\ (forall i j p,
          i < Z.to_nat n -> symmetric_matrices E (files w) !! j = Some p ->
          exists r,
            rs1 !! (i * length (symmetric_matrices E (files w)) + j) = Some r
            /\ measured_from E (files w) library "def_pos"
                 (clock w
                  + 3 * (i * length (symmetric_matrices E (files w)) + j) + 1)
                 p r)
    /\ (forall i j p,
          i < Z.to_nat n -> unsym_matrices E (files w) !! j = Some p ->
          exists r,
            rs2 !! (i * length (unsym_matrices E (files w)) + j) = Some r
            /\ measured_from E (files w) library "non_def_pos"
                 (clock w
                  + 3 * (Z.to_nat n * length (symmetric_matrices E (files w)))
                  + 3 * (i * length (unsym_matrices E (files w)) + j) + 1)
                 p r).
Proof.
  unfold symmetric_matrices, unsym_matrices.
  set (corpus1 := sorted (glob_glob E (files w) def_pos_pattern)).
  set (corpus2 := sorted (glob_glob E (files w) non_def_pos_pattern)).
  set (t1 := clock w + 3 * (Z.to_nat n * length corpus1)).
  intros Hlib Hint Hn Hpre Hs Hr1 Hr2 Hfresh Hsome.
  pose proof (in_library_names_valid library Hlib) as Hv.
  unfold script. fold def_pos_pattern non_def_pos_pattern log_name.
  assert (existsb (String.eqb library) library_names = true) as ->.
  { apply existsb_exists. exists library. split; [exact Hlib|].
    apply String.eqb_refl. }
  cbn [negb]. rewrite Hint.
  destruct (Z.leb_spec 1 n) as [_|?]; [|lia]. cbn [negb].
  erewrite bind_returns by apply print_run.
  erewrite bind_returns by apply print_run.
  erewrite bind_returns by apply print_run.
  match goal with
  | |- context [bind _ _ ?w1] => set (w1' := w1)
  end.
  erewrite bind_returns
    by (apply (wait_ready_answered pre rest (S (length (stdin w1'))) w1');
        [exact Hpre | exact Hs | simpl; rewrite Hs, length_app; simpl; lia]).
  erewrite bind_returns by apply glob_run. cbv zeta.
  change (files (after_input w1' (S (length pre)) rest)) with (files w).
  fold corpus1.
  match goal with
  | |- context [bind (main E corpus1 _ _ _) _ ?w3] =>
      destruct (main_completes E corpus1 "def_pos" library n w3 Hv Hr1)
        as (rs1 & w4 & Hrun1 & Hf4 & Hck4 & _ & Hn1 & Hall1 & Hmeas1)
  end.
  erewrite bind_returns by exact Hrun1.
  erewrite bind_returns by apply glob_run. cbv zeta.
  rewrite Hf4.
  change (files (world_after (after_input w1' (S (length pre)) rest) 0
                   [EvGlob def_pos_pattern] []))
    with (files w) in *.
  change (clock (world_after (after_input w1' (S (length pre)) rest) 0
                   [EvGlob def_pos_pattern] []))
    with (clock w) in *.
  fold corpus2. fold t1 in Hck4.
  match goal with
  | |- context [bind (main E corpus2 _ _ _) _ ?w5] =>
      destruct (main_completes E corpus2 "non_def_pos" library n w5 Hv)
        as (rs2 & w6 & Hrun2 & Hf6 & _ & _ & Hn2 & Hall2 & Hmeas2);
        [simpl; rewrite Hf4, Hck4; exact Hr2 |]
  end.
  erewrite bind_returns by exact Hrun2.
  simpl in Hf6, Hmeas2. rewrite Hf4 in Hf6, Hmeas2. rewrite Hck4 in Hmeas2.
  destruct (two_logs_on_fresh_destination E rs1 rs2 log_name w6)
    as (w' & Hlog & Hfs).
  { rewrite Hf6. exact Hfresh. }
  { assert (0 < Z.to_nat n) as Hk by lia.
    destruct Hsome as [Hg|Hg]; [left|right]; intros ->.
    - symmetry in Hn1. apply concat_repeat_not_nil in Hn1; [exact Hn1| |exact Hk].
      intros Hm. apply map_eq_nil in Hm. contradiction.
    - symmetry in Hn2. apply concat_repeat_not_nil in Hn2; [exact Hn2| |exact Hk].
      intros Hm. apply map_eq_nil in Hm. contradiction. }
  exists rs1, rs2, w'. split; [exact Hlog|].
  rewrite Hfs, Hf6. repeat split; assumption.
Qed.

Example session_log :
  files (snd (script
                (set_glob Lab.env
                   (found_corpora ["./data/a.mtx"] ["./data/z.mtx"]))
                ["solver.py"; "umfpack"; "1"]
                {| files := Demo.disk; stdout := []; stdin := ["n"; "y"];
                   clock := 0; trace := [] |}))
    !! "./windows-python-result-log.csv"
  = Some (File
      ("matrix,dimensions,type,start_time,end_time,rel_error,system,library,umfpack_error"
         ++ LF ++ "a.mtx,2x2,def_pos,0.0,0.0,0.0,windows,umfpack,0" ++ CR ++ LF
         ++ "z.mtx,1x1,non_def_pos,0.0,0.0,nan,windows,umfpack,0" ++ CR ++ LF)).
Proof. vm_compute. reflexivity. Qed.

Lemma session_pass_ready (found other : list string) p text m t0 :
  Demo.disk !! p = Some (File text) ->
  Demo.parse text = inr m ->
  (fst (sp_shape m) =? snd (sp_shape m))%nat = true ->
  pass_ready (set_glob Lab.env (found_corpora found other)) Demo.disk
    "umfpack" t0 [p].
Proof.
  intros Hf Hm Hsq [|j] q Hj; [|destruct j; discriminate].
  injection Hj as <-. exists text, m. split; [exact Hf|]. split; [exact Hm|].
  destruct (lab_solve_completes "umfpack" (t0 + 3 * 0 + 1)
              (loaded Lab.env "umfpack" m)) as [Himp Hall];
    [exact Hsq | str_neq |].
  split; [exact Himp | exact Hall].
Qed.

Lemma script_logs_both_corpora_witness :
  exists rs1 rs2 w',
    script Lab.session_env ["solver.py"; "umfpack"; "2"] Lab.session_world = (Returns tt, w')
    /\ files w'
       = <[result_path log_name :=
             File (header_text Lab.session_env ++ rows_text Lab.session_env rs1 ++ rows_text Lab.session_env rs2)]>
           (files Lab.session_world)
    /\ map matrix_name rs1
       = concat (repeat (map file_name (symmetric_matrices Lab.session_env (files Lab.session_world)))
                   (Z.to_nat 2))
    /\ map matrix_name rs2
       = concat (repeat (map file_name (unsym_matrices Lab.session_env (files Lab.session_world)))
                   (Z.to_nat 2))
    /\ Forall (right_result "def_pos" "umfpack") rs1
    /\ Forall (right_result "non_def_pos" "umfpack") rs2
    /\ (forall i j p,
          i < Z.to_nat 2 -> symmetric_matrices Lab.session_env (files Lab.session_world) !! j = Some p ->
          exists r,
            rs1 !! (i * length (symmetric_matrices Lab.session_env (files Lab.session_world)) + j) = Some r
            /\ measured_from Lab.session_env (files Lab.session_world) "umfpack" "def_pos"
                 (clock Lab.session_world
                  + 3 * (i * length (symmetric_matrices Lab.session_env (files Lab.session_world)) + j) + 1)
                 p r)
    /\ (forall i j p,
          i < Z.to_nat 2 -> unsym_matrices Lab.session_env (files Lab.session_world) !! j = Some p ->
          exists r,
            rs2 !! (i * length (unsym_matrices Lab.session_env (files Lab.session_world)) + j) = Some r
            /\ measured_from Lab.session_env (files Lab.session_world) "umfpack" "non_def_pos"
                 (clock Lab.session_world
                  + 3 * (Z.to_nat 2 * length (symmetric_matrices Lab.session_env (files Lab.session_world)))
                  + 3 * (i * length (unsym_matrices Lab.session_env (files Lab.session_world)) + j) + 1)
                 p r).
Proof.
  apply (script_logs_both_corpora Lab.session_env "solver.py" "umfpack" "2" 2
           ["n"] [] Lab.session_world).
  - simpl. tauto.
  - reflexivity.
  - lia.
  - repeat constructor; str_neq.
  - reflexivity.
  - intros i _. apply (session_pass_ready _ _ _ "diag2" Demo.diag2); reflexivity.
  - intros i _. apply (session_pass_ready _ _ _ "zero1" Demo.zero1); reflexivity.
  - reflexivity.
  - left. discriminate.
Defined.

(** ** The order of a run *)

Lemma str_le_le a b : str_le a b <-> String.le a b.
Proof.
  unfold str_le, String.le. split; [apply Is_true_true_2 | apply Is_true_true_1].
Qed.

Lemma str_le_trans : Transitive str_le.
Proof.
  intros a b c Hab Hbc. apply str_le_le. apply str_le_le in Hab, Hbc.
  now transitivity b.
Qed.

Lemma str_le_total : Total str_le.
Proof.
  intros a b. destruct (total String.le a b) as [H|H]; [left|right];
    now apply str_le_le.
Qed.

Lemma str_le_antisym : AntiSymm (=) str_le.
Proof.
  intros a b Hab Hba. apply str_le_le in Hab, Hba.
  now apply (anti_symm String.le).
Qed.

Lemma sorted_permutation (l l' : list string) :
  Permutation l l' -> sorted l = sorted l'.
Proof.
  intros Hperm.
  pose proof (@Sorted_merge_sort string str_le _ str_le_total) as Hsorted.
  pose proof (merge_sort_Permutation str_le) as Hp.
  apply (@Sorted_unique string str_le str_le_trans str_le_antisym);
    [apply Hsorted | apply Hsorted |].
  unfold sorted. rewrite !Hp. exact Hperm.
Qed.

Lemma sorted_ascending (l : list string) :
  Sorted str_le (sorted l) /\ Permutation (sorted l) l.
Proof.
  split.
  - apply (@Sorted_merge_sort string str_le _ str_le_total).
  - apply (merge_sort_Permutation str_le).
Qed.

Lemma bind_ext {A B} (c : M A) (k k' : A -> M B) w :
  (forall a w', k a w' = k' a w') -> bind c k w = bind c k' w.
Proof.
  intros Hk. unfold bind. destruct (c w) as [[a|e] w']; [apply Hk | reflexivity].
Qed.

Lemma main_set_glob (E : Env) g matrices type library num_runs :
  main (set_glob E g) matrices type library num_runs
  = main E matrices type library num_runs.
Proof. reflexivity. Qed.

Lemma log_results_set_glob (E : Env) g results filename :
  log_results (set_glob E g) results filename = log_results E results filename.
Proof. reflexivity. Qed.

Lemma script_search_order (E : Env)
    (g g' : gmap string node -> string -> list string) argv w :
  (forall fs pattern, Permutation (g fs pattern) (g' fs pattern)) ->
  script (set_glob E g) argv w = script (set_glob E g') argv w.
Proof.
  intros Hperm. unfold script.
  destruct argv as [|a0 [|a1 [|a2 [|a3 argv]]]]; try reflexivity.
  destruct (negb (existsb (String.eqb a1) library_names)); [reflexivity|].
  change (py_int (set_glob E g) a2) with (py_int E a2).
  change (py_int (set_glob E g') a2) with (py_int E a2).
  destruct (py_int E a2) as [n|]; [|reflexivity].
  destruct (negb (1 <=? n)%Z); [reflexivity|].
  apply bind_ext; intros _ w1.
  apply bind_ext; intros _ w2.
  apply bind_ext; intros _ w3.
  apply bind_ext; intros _ w4.
  erewrite (bind_returns (glob (set_glob E g) _)) by apply glob_run.
  erewrite (bind_returns (glob (set_glob E g') _)) by apply glob_run.
  cbv zeta.
  change (glob_glob (set_glob E g)) with g.
  change (glob_glob (set_glob E g')) with g'.
  rewrite (sorted_permutation _ _ (Hperm (files w4) _)).
  rewrite !main_set_glob.
  apply bind_ext; intros rs1 w5.
  erewrite (bind_returns (glob (set_glob E g) _)) by apply glob_run.
  erewrite (bind_returns (glob (set_glob E g') _)) by apply glob_run.
  cbv zeta.
  change (glob_glob (set_glob E g)) with g.
  change (glob_glob (set_glob E g')) with g'.
  rewrite (sorted_permutation _ _ (Hperm (files w5) _)).
  rewrite !main_set_glob.
  apply bind_ext; intros rs2 w6.
  rewrite !log_results_set_glob. reflexivity.
Qed.

(** The outcome of the script does not depend on the order in which the
    directory search lists the paths it finds. Two searches that find the
    same paths, in whatever order, give the same outcome and the same
    final world (the same reads and solves in the same order, the same
    output, the same log), and this is the outcome with a search that
    lists its paths in ascending order: the script sorts what the search
    finds before it runs it. *)
Theorem run_order_ignores_search_order (E : Env)
    (g g' : gmap string node -> string -> list string) argv w :
  (forall fs pattern, Permutation (g fs pattern) (g' fs pattern)) ->
  script (set_glob E g) argv w = script (set_glob E g') argv w
  /\ script (set_glob E g) argv w
     = script (set_glob E (fun fs pattern => sorted (g fs pattern))) argv w
  /\ (forall fs pattern, Sorted str_le (sorted (g fs pattern))).
Proof.
  intros Hperm. split; [|split].
  - now apply script_search_order.
  - apply script_search_order. intros fs pattern. symmetry.
    apply sorted_ascending.
  - intros fs pattern. apply sorted_ascending.
Qed.

Lemma run_order_ignores_search_order_witness :
  script (set_glob Lab.env (found_corpora ["./data/z.mtx"; "./data/a.mtx"] []))
    ["solver.py"; "superlu"; "1"]
    {| files := Demo.disk; stdout := []; stdin := ["y"]; clock := 0;
       trace := [] |}
  = script (set_glob Lab.env (found_corpora ["./data/a.mtx"; "./data/z.mtx"] []))
      ["solver.py"; "superlu"; "1"]
      {| files := Demo.disk; stdout := []; stdin := ["y"]; clock := 0;
         trace := [] |}
  /\ script (set_glob Lab.env (found_corpora ["./data/z.mtx"; "./data/a.mtx"] []))
       ["solver.py"; "superlu"; "1"]
       {| files := Demo.disk; stdout := []; stdin := ["y"]; clock := 0;
          trace := [] |}
     = script
         (set_glob Lab.env
            (fun fs pattern =>
               sorted (found_corpora ["./data/z.mtx"; "./data/a.mtx"] []
                         fs pattern)))
         ["solver.py"; "superlu"; "1"]
         {| files := Demo.disk; stdout := []; stdin := ["y"]; clock := 0;
            trace := [] |}
  /\ (forall fs pattern,
        Sorted str_le
          (sorted (found_corpora ["./data/z.mtx"; "./data/a.mtx"] []
                     fs pattern))).
Proof.
  apply (run_order_ignores_search_order Lab.env
           (found_corpora ["./data/z.mtx"; "./data/a.mtx"] [])
           (found_corpora ["./data/a.mtx"; "./data/z.mtx"] [])).
  intros fs pattern. unfold found_corpora.
  destruct (String.eqb pattern def_pos_pattern); [apply perm_swap | reflexivity].
Defined.

Example search_finds_z_first :
  trace (snd (script
                (set_glob Lab.env
                   (found_corpora ["./data/z.mtx"; "./data/a.mtx"] []))
                ["solver.py"; "superlu"; "1"]
                {| files := Demo.disk; stdout := []; stdin := ["y"];
                   clock := 0; trace := [] |}))
  = [EvGlob def_pos_pattern;
     EvRead "./data/a.mtx"; EvSolve "superlu" CSC;
     EvRead "./data/z.mtx"; EvSolve "superlu" CSC;
     EvGlob non_def_pos_pattern;
     EvStat "./windows-python-result-log.csv";
     EvCreate "./windows-python-result-log.csv";
     EvAppend "./windows-python-result-log.csv"].
Proof. vm_compute. reflexivity. Qed.

Example capitals_sort_first :
  sorted ["./data/b.mtx"; "./data/a.mtx"; "./data/B.mtx"]
  = ["./data/B.mtx"; "./data/a.mtx"; "./data/b.mtx"].
Proof. vm_compute. reflexivity. Qed.

(** ** A file that is missing *)

Lemma for_each_app {A S} (l1 l2 : list A) (body : A -> S -> M S) s w :
  for_each (l1 ++ l2) body s w
  = match for_each l1 body s w with
    | (Returns s1, w1) => for_each l2 body s1 w1
    | (Raises e, w1) => (Raises e, w1)
    end.
Proof.
  revert s w. induction l1 as [|x l1 IH]; intros s w; simpl; [reflexivity|].
  unfold bind. destruct (body x s w) as [[s1|e] w1]; [apply IH | reflexivity].
Qed.

Lemma enumerate_from_app {A} (l1 l2 : list A) k :
  combine (seq k (length (l1 ++ l2))) (l1 ++ l2)
  = (combine (seq k (length l1)) l1
       ++ combine (seq (k + length l1) (length l2)) l2)%list.
Proof.
  revert k. induction l1 as [|x l1 IH]; intros k; simpl.
  - now rewrite Nat.add_0_r.
  - rewrite IH. now rewrite Nat.add_succ_r.
Qed.

Lemma map_snd_combine_seq {A} (l : list A) k :
  map snd (combine (seq k (length l)) l) = l.
Proof.
  revert k. induction l as [|x l IH]; intros k; simpl; [reflexivity|].
  now rewrite IH.
Qed.

Lemma main_iteration_missing_file (E : Env) matrices type library i index path rs w :
  valid_library library ->
  files w !! path = None ->
  main_iteration E matrices type library i (index, path) rs w
  = (Raises (FileNotFoundError path), world_after w 0 [EvRead path] []).
Proof.
  intros Hv Hf. unfold main_iteration. apply bind_raises.
  destruct Hv as [-> | [-> | ->]]; unfold load_step, load_matrix; simpl;
    apply bind_raises; apply bind_raises; now rewrite mmread_run, Hf.
Qed.

(** A path that names no file aborts the run where it stands. With a valid
    library and at least one trial, when each matrix before the missing one
    is in a file that parses and its solve in the first trial completes,
    [main] raises [FileNotFoundError] for that path in the first trial: the
    matrices before it were read and solved once each, the missing one was
    tried, the ones after it were never touched, no result is returned and
    no file has changed. Nothing is asked of the matrices after the
    missing one, nor of the backend on other systems. *)
Theorem main_stops_at_the_first_missing_file
    (E : Env) (good : list string) (missing : string) (later : list string)
    type library (num_runs : Z) (w : World) :
  valid_library library ->
  (1 <= num_runs)%Z ->
  pass_ready E (files w) library (clock w) good ->
  files w !! missing = None ->
  exists w',
    main E (good ++ missing :: later) type library num_runs w
    = (Raises (FileNotFoundError missing), w')
    /\ trace w'
       = (trace w ++ pass_events library good ++ [EvRead missing])%list
    /\ files w' = files w.
Proof.
  intros Hv Hn Hready Hmiss. unfold main.
  erewrite bind_returns by apply print_run.
  erewrite bind_returns by apply print_all_run.
  destruct (Z.to_nat num_runs) as [|k] eqn:Hk; [lia|].
  cbn [seq for_each].
  match goal with
  | |- context [bind (bind (main_run ?E ?ms ?t ?l ?n 0 []) ?k1) ?k2 ?w1] =>
      assert (exists w', main_run E ms t l n 0 [] w1
                         = (Raises (FileNotFoundError missing), w')
                /\ trace w' = (trace w ++ pass_events library good
                                 ++ [EvRead missing])%list
                /\ files w' = files w) as (w' & Hrun & Htr & Hfs')
  end.
  { unfold main_run.
    erewrite bind_returns by apply print_run.
    erewrite bind_returns by apply print_run.
    unfold enumerate. rewrite enumerate_from_app, for_each_app.
    match goal with
    | |- context [for_each (combine (seq 0 (length good)) good) ?body [] ?w2] =>
        destruct (inner_loop_completes E (good ++ missing :: later) type
                    library 0 Hv (combine (seq 0 (length good)) good) [] w2)
          as (rs & w3 & Hloop & Hfs & _ & Htr3 & _)
    end.
    { rewrite map_snd_combine_seq. exact Hready. }
    rewrite Hloop. cbn [length seq combine for_each].
    erewrite bind_raises
      by (apply main_iteration_missing_file; [exact Hv | now rewrite Hfs]).
    eexists. split; [reflexivity|]. split.
    - simpl. rewrite Htr3, map_snd_combine_seq. simpl.
      rewrite !app_nil_r, <- app_assoc. reflexivity.
    - simpl. rewrite Hfs. reflexivity. }
  exists w'. split; [|split; [exact Htr | exact Hfs']].
  apply bind_raises. apply bind_raises. exact Hrun.
Qed.

Lemma main_stops_at_the_first_missing_file_witness :
  exists w',
    main Lab.env (["./data/a.mtx"] ++ "./data/missing.mtx" :: ["./data/z.mtx"])
      "def_pos" "superlu" 3 (Demo.world Demo.disk)
    = (Raises (FileNotFoundError "./data/missing.mtx"), w')
    /\ trace w'
       = (trace (Demo.world Demo.disk)
            ++ pass_events "superlu" ["./data/a.mtx"]
            ++ [EvRead "./data/missing.mtx"])%list
    /\ files w' = files (Demo.world Demo.disk).
Proof.
  apply (main_stops_at_the_first_missing_file Lab.env ["./data/a.mtx"]
           "./data/missing.mtx" ["./data/z.mtx"] "def_pos" "superlu" 3
           (Demo.world Demo.disk)).
  - right. now left.
  - lia.
  - intros [|j] p Hj; [|destruct j; discriminate].
    injection Hj as <-. exists "diag2", Demo.diag2.
    split; [reflexivity|]. split; [reflexivity|].
    apply lab_solve_completes; [reflexivity | str_neq].
  - reflexivity.
Defined.
